(** * MandiusBot: the report dialogue of index.js

    A shallow embedding of the Telegram report bot of [src/index.js]:
    the two scenes [getLink] and [getReason], the report generator
    [generateReport] with its live lookup and its string-shape fallback,
    and the order in which Telegraf hands an update to the registered
    handlers; then the start of the process (the checks of the environment
    and the launch) and the report generator of the earlier version of the
    file, [src/unnamed/part_000].

    Conventions.
    - A JavaScript string is the sequence of bytes of its UTF-8 encoding
      (Rocq's [string]).  The separators the program searches for ("/",
      "@", "+", "_", " ") are ASCII, so searching, splitting and cutting at
      them agree on bytes and on UTF-16 code units.  Case conversion is
      modelled on the ASCII letters only.
    - [console.log] and [console.error] have no effect on the dialogue and
      are left out.
    - Calls to the Telegram API that send something ([reply],
      [replyWithHTML], [editMessageText], [answerCbQuery]) append to the
      list of outgoing calls and do not fail; [getChat] is the one call
      whose failure the program handles, and it is a parameter. *)

From Stdlib Require Import String Ascii List ZArith Bool Arith Lia DecimalString.
Import ListNotations.
Local Open Scope string_scope.

(** ** JavaScript builtins used by the program *)

Module JS.

(** [s.startsWith(p)] *)
Definition startsWith (s p : string) : bool := String.prefix p s.

(** [s.includes(p)] *)
Fixpoint includes (s p : string) : bool :=
  String.prefix p s
  || match s with
     | EmptyString => false
     | String _ r => includes r p
     end.

(** [s.split(sep)] for a one-character separator: never empty. *)
Fixpoint split (sep : ascii) (s : string) : list string :=
  match s with
  | EmptyString => [EmptyString]
  | String c r =>
      if Ascii.eqb c sep then EmptyString :: split sep r
      else match split sep r with
           | w :: ws => String c w :: ws
           | [] => [String c EmptyString]
           end
  end.

(** [l.join(sep)] *)
Definition join (sep : string) (l : list string) : string :=
  String.concat sep l.

(** [parts[parts.length - 1]], read as a string ([split] is never empty). *)
Definition lastOf (parts : list string) : string := List.last parts "".

(** [s.substring(1)] and [s.slice(1)] *)
Definition substring1 (s : string) : string :=
  match s with
  | EmptyString => EmptyString
  | String _ r => r
  end.

(** [s.charAt(0)] *)
Definition charAt0 (s : string) : string :=
  match s with
  | EmptyString => EmptyString
  | String c _ => String c EmptyString
  end.

Definition upper_ascii (c : ascii) : ascii :=
  let n := nat_of_ascii c in
  if (97 <=? n)%nat && (n <=? 122)%nat then ascii_of_nat (n - 32) else c.

Definition lower_ascii (c : ascii) : ascii :=
  let n := nat_of_ascii c in
  if (65 <=? n)%nat && (n <=? 90)%nat then ascii_of_nat (n + 32) else c.

Fixpoint map_chars (f : ascii -> ascii) (s : string) : string :=
  match s with
  | EmptyString => EmptyString
  | String c r => String (f c) (map_chars f r)
  end.

(** [s.toUpperCase()] and [s.toLowerCase()] on the ASCII letters.  A
    letter outside ASCII is left as it is, where JavaScript follows the
    Unicode case mappings (and may change the length of the string): on a
    string with such a letter the two can differ. *)
Definition toUpperCase : string -> string := map_chars upper_ascii.
Definition toLowerCase : string -> string := map_chars lower_ascii.

Fixpoint drop (n : nat) (s : string) : string :=
  match n, s with
  | O, _ => s
  | S _, EmptyString => EmptyString
  | S k, String _ r => drop k r
  end.

(** [s.replace(pat, '')] with a string pattern: the first occurrence of
    [pat] is removed, wherever it stands. *)
Fixpoint removeFirst (s pat : string) : string :=
  if String.prefix pat s then drop (String.length pat) s
  else match s with
       | EmptyString => EmptyString
       | String c r => String c (removeFirst r pat)
       end.

(** [s.replace(/_/g, ' ')] *)
Definition underscoresToSpaces : string -> string :=
  map_chars (fun c => if Ascii.eqb c "_" then " "%char else c).

(** [x || d] on a property that holds a string or is undefined: the
    empty string is falsy as well. *)
Definition orDefault (x : option string) (d : string) : string :=
  match x with
  | None => d
  | Some EmptyString => d
  | Some s => s
  end.

(** *** White space and [trim]

    WhiteSpace and LineTerminator of ECMAScript, in UTF-8: the six
    one-byte characters, U+00A0, and the three-byte ones U+1680,
    U+2000..U+200A, U+2028, U+2029, U+202F, U+205F, U+3000, U+FEFF. *)

Definition ws1 (c : ascii) : bool :=
  let n := nat_of_ascii c in
  ((9 <=? n)%nat && (n <=? 13)%nat) || (n =? 32)%nat.

Definition ws2 (c1 c2 : ascii) : bool :=
  (nat_of_ascii c1 =? 194)%nat && (nat_of_ascii c2 =? 160)%nat.

Definition ws3 (c1 c2 c3 : ascii) : bool :=
  let a := nat_of_ascii c1 in
  let b := nat_of_ascii c2 in
  let c := nat_of_ascii c3 in
  ((a =? 225) && (b =? 154) && (c =? 128))%nat
  || ((a =? 226) && (b =? 128)
      && (((128 <=? c) && (c <=? 138)) || (c =? 168) || (c =? 169) || (c =? 175)))%nat
  || ((a =? 226) && (b =? 129) && (c =? 159))%nat
  || ((a =? 227) && (b =? 128) && (c =? 128))%nat
  || ((a =? 239) && (b =? 187) && (c =? 191))%nat.

(** Strips white space from the front of a list of bytes; with
    [backwards] the list is a reversed string and so is each character. *)
Fixpoint stripFront (backwards : bool) (l : list ascii) : list ascii :=
  match l with
  | [] => []
  | c1 :: r1 =>
      if ws1 c1 then stripFront backwards r1
      else match r1 with
           | [] => l
           | c2 :: r2 =>
               if (if backwards then ws2 c2 c1 else ws2 c1 c2)
               then stripFront backwards r2
               else match r2 with
                    | [] => l
                    | c3 :: r3 =>
                        if (if backwards then ws3 c3 c2 c1 else ws3 c1 c2 c3)
                        then stripFront backwards r3
                        else l
                    end
           end
  end.

Definition trimStartL (l : list ascii) : list ascii := stripFront false l.
Definition trimEndL (l : list ascii) : list ascii :=
  List.rev (stripFront true (List.rev l)).

(** [s.trim()] *)
Definition trim (s : string) : string :=
  string_of_list_ascii (trimEndL (trimStartL (list_ascii_of_string s))).

(** *** Numbers

    A number is an integer or NaN.  The program only ever asks whether a
    string converts to a number ([isNaN]), parses an integer out of one
    ([parseInt]) and prints the integer id of a chat.  [parseInt] is given
    its exact integer value; the rounding of JavaScript to a double above
    2^53 is a function of that value and is left to the receiver.  The id
    of a chat is an integer below 2^53, which JavaScript prints in full. *)

Inductive number : Type :=
| NaN
| Int (z : Z).

Definition isDigit (c : ascii) : bool :=
  let n := nat_of_ascii c in (48 <=? n)%nat && (n <=? 57)%nat.

Definition hexValue (c : ascii) : option Z :=
  let n := nat_of_ascii c in
  if (48 <=? n)%nat && (n <=? 57)%nat then Some (Z.of_nat (n - 48))
  else if (97 <=? n)%nat && (n <=? 102)%nat then Some (Z.of_nat (n - 87))
  else if (65 <=? n)%nat && (n <=? 70)%nat then Some (Z.of_nat (n - 55))
  else None.

Definition digitValue (radix : Z) (c : ascii) : option Z :=
  match hexValue c with
  | Some v => if (v <? radix)%Z then Some v else None
  | None => None
  end.

(** The rest of [l] after its longest prefix of digits of [radix], and
    whether that prefix is not empty. *)
Fixpoint skipDigits (radix : Z) (l : list ascii) : bool * list ascii :=
  match l with
  | [] => (false, [])
  | c :: r =>
      match digitValue radix c with
      | Some _ => (true, snd (skipDigits radix r))
      | None => (false, l)
      end
  end.

Definition skipSign (l : list ascii) : list ascii :=
  match l with
  | c :: r => if Ascii.eqb c "+" || Ascii.eqb c "-" then r else l
  | [] => l
  end.

(** ExponentPart, optional, up to the end of the string. *)
Definition exponentToEnd (l : list ascii) : bool :=
  match l with
  | [] => true
  | c :: r =>
      (Ascii.eqb c "e" || Ascii.eqb c "E")
      && (let '(some, rest) := skipDigits 10 (skipSign r) in
          some && match rest with [] => true | _ :: _ => false end)
  end.

(** StrUnsignedDecimalLiteral *)
Definition unsignedDecimal (l : list ascii) : bool :=
  if list_eq_dec ascii_dec l (list_ascii_of_string "Infinity") then true
  else
    let '(int, r1) := skipDigits 10 l in
    match r1 with
    | c :: r2 =>
        if Ascii.eqb c "."
        then let '(frac, r3) := skipDigits 10 r2 in
             (int || frac) && exponentToEnd r3
        else int && exponentToEnd r1
    | [] => int
    end.

(** NonDecimalIntegerLiteral: 0x, 0o, 0b and their digits. *)
Definition nonDecimal (l : list ascii) : bool :=
  match l with
  | z :: p :: r =>
      Ascii.eqb z "0"
      && (let radix :=
            if Ascii.eqb p "x" || Ascii.eqb p "X" then Some 16%Z
            else if Ascii.eqb p "o" || Ascii.eqb p "O" then Some 8%Z
            else if Ascii.eqb p "b" || Ascii.eqb p "B" then Some 2%Z
            else None in
          match radix with
          | Some k =>
              let '(some, rest) := skipDigits k r in
              some && match rest with [] => true | _ :: _ => false end
          | None => false
          end)
  | _ => false
  end.

(** Whether [Number(s)] is a number: StringNumericLiteral. *)
Definition isNumericString (s : string) : bool :=
  let l := trimEndL (trimStartL (list_ascii_of_string s)) in
  match l with
  | [] => true
  | _ :: _ => nonDecimal l || unsignedDecimal (skipSign l)
  end.

(** [isNaN(s)] on a string *)
Definition isNaN (s : string) : bool := negb (isNumericString s).

(** The value of the longest prefix of digits of [radix], most
    significant first. *)
Fixpoint digitsValue (radix : Z) (acc : Z) (l : list ascii) : Z :=
  match l with
  | [] => acc
  | c :: r =>
      match digitValue radix c with
      | Some v => digitsValue radix (acc * radix + v) r
      | None => acc
      end
  end.

(** [parseInt(s)] without a radix *)
Definition parseInt (s : string) : number :=
  let l := trimStartL (list_ascii_of_string s) in
  let negative := match l with c :: _ => Ascii.eqb c "-" | [] => false end in
  let l1 := skipSign l in
  let '(radix, l2) :=
    match l1 with
    | z :: p :: r =>
        if Ascii.eqb z "0" && (Ascii.eqb p "x" || Ascii.eqb p "X")
        then (16%Z, r) else (10%Z, l1)
    | _ => (10%Z, l1)
    end in
  if fst (skipDigits radix l2)
  then let v := digitsValue radix 0 l2 in
       Int (if negative then - v else v)
  else NaN.

(** A value held by a variable that is first a string and later a
    number ([chat_id]), and its conversion in a template literal. *)
Inductive value : Type :=
| VString (s : string)
| VNumber (n : number).

Definition numberToString (n : number) : string :=
  match n with
  | NaN => "NaN"
  | Int z => NilZero.string_of_int (Z.to_int z)
  end.

Definition toString (v : value) : string :=
  match v with
  | VString s => s
  | VNumber n => numberToString n
  end.

End JS.

(** ** Effects: a state that survives a thrown exception

    A computation runs on a state [S] and ends with a value or with a thrown
    error, an [Error] object known by its message.  What was assigned before
    a [throw] stays assigned, as for the [let] variables and the [ctx] of the
    program. *)

Inductive Res (A : Type) : Type :=
| Ok (a : A)
| Thrown (message : string).

Arguments Ok {A} a.
Arguments Thrown {A} message.

Definition M (S A : Type) : Type := S -> Res A * S.

Definition ret {S A : Type} (a : A) : M S A := fun s => (Ok a, s).

Definition bind {S A B : Type} (m : M S A) (k : A -> M S B) : M S B :=
  fun s =>
    match m s with
    | (Ok a, s') => k a s'
    | (Thrown e, s') => (Thrown e, s')
    end.

Definition throw {S A : Type} (message : string) : M S A :=
  fun s => (Thrown message, s).

(** [try { body } catch (error) { handler }] *)
Definition tryCatch {S A : Type} (body : M S A) (handler : string -> M S A) : M S A :=
  fun s =>
    match body s with
    | (Ok a, s') => (Ok a, s')
    | (Thrown e, s') => handler e s'
    end.

Definition gets {S A : Type} (f : S -> A) : M S A := fun s => (Ok (f s), s).

Definition modify {S : Type} (f : S -> S) : M S unit := fun s => (Ok tt, f s).

(** [await] of a call that resolves or rejects without touching the state. *)
Definition await {S A : Type} (r : Res A) : M S A := fun s => (r, s).

Declare Scope js_scope.
Delimit Scope js_scope with js.
Notation "x <- m ;; k" := (bind m (fun x => k))
  (at level 61, m at next level, right associativity) : js_scope.
Notation "m ;; k" := (bind m (fun _ => k))
  (at level 61, right associativity) : js_scope.
Local Open Scope js_scope.

(** ** Data *)

(** The scenes registered with the stage. *)
Inductive SceneId : Type :=
| getLink
| getReason.

(** [ctx.session]: the three fields the handlers write, and the scene the
    stage keeps under [__scenes.current] in the same object, so that
    [ctx.session = {}] also forgets the scene. *)
Record Session : Type := mkSession {
  reportLink : option string;
  reasonType : option string;
  detailedReason : option string;
  scenes_current : option SceneId
}.

(** [{}] *)
Definition emptySession : Session := mkSession None None None None.

Definition set_reportLink (v : string) (s : Session) : Session :=
  mkSession (Some v) (reasonType s) (detailedReason s) (scenes_current s).
Definition set_reasonType (v : string) (s : Session) : Session :=
  mkSession (reportLink s) (Some v) (detailedReason s) (scenes_current s).
Definition set_detailedReason (v : string) (s : Session) : Session :=
  mkSession (reportLink s) (reasonType s) (Some v) (scenes_current s).
Definition set_scenes_current (v : option SceneId) (s : Session) : Session :=
  mkSession (reportLink s) (reasonType s) (detailedReason s) v.

(** What the bot sends to Telegram. *)
Inductive Outgoing : Type :=
| Reply (text : string)
| ReplyWithKeyboard (text : string) (buttons : list (string * string))
| ReplyWithHTML (text : string)
| AnswerCbQuery
| EditMessageText (text : string).

(** The context of one user: the session and what has been sent so far. *)
Record Ctx : Type := mkCtx {
  session : Session;
  sent : list Outgoing
}.

Definition emptyCtx : Ctx := mkCtx emptySession [].

Definition send (o : Outgoing) : M Ctx unit :=
  modify (fun ctx => mkCtx (session ctx) (sent ctx ++ [o])).

Definition updateSession (f : Session -> Session) : M Ctx unit :=
  modify (fun ctx => mkCtx (f (session ctx)) (sent ctx)).

(** An update: who sent it and what it carries. *)
Inductive Payload : Type :=
| Text (text : string)
| NonText
| Callback (data : string).

Record Update : Type := mkUpdate {
  first_name : option string;
  payload : Payload
}.

(** What [getChat] is called with: a string or a number. *)
Inductive ChatIdentifier : Type :=
| CIString (s : string)
| CINumber (n : JS.number).

(** The fields of the chat returned by [getChat] that the program reads. *)
Record ChatInfo : Type := mkChatInfo {
  ci_id : Z;
  ci_title : option string;
  ci_type : string;
  ci_username : option string;
  ci_is_bot : bool
}.

(** The [let] variables of [generateReport]. *)
Record Locals : Type := mkLocals {
  chatType : string;
  chatTitle : string;
  chat_id : JS.value
}.

Definition set_chatType (v : string) : M Locals unit :=
  modify (fun l => mkLocals v (chatTitle l) (chat_id l)).
Definition set_chatTitle (v : string) : M Locals unit :=
  modify (fun l => mkLocals (chatType l) v (chat_id l)).
Definition set_chat_id (v : JS.value) : M Locals unit :=
  modify (fun l => mkLocals (chatType l) (chatTitle l) v).

Definition chat_id_placeholder : string :=
  "None (Please find using @userinfobot or similar)".

Definition initialLocals : Locals :=
  mkLocals "Unknown" "None" (JS.VString chat_id_placeholder).

Definition nl : string := String "010" EmptyString.

(** ** The report generator *)

Section Bot.

(** [ctx.telegram.getChat]: resolves to the chat or rejects. *)
Variable getChat : ChatIdentifier -> Res ChatInfo.

(** The first statement of the [try] block: what [getChat] is called with,
    or a throw for an invite link and for a string that is neither a link,
    a number nor an @username. *)
Definition chatIdentifierOf (reportLink : string) : M Locals ChatIdentifier :=
  if JS.startsWith reportLink "https://t.me/" then
    let parts := JS.split "/" reportLink in
    let lastPart := JS.lastOf parts in
    if JS.startsWith lastPart "+" then
      throw "Cannot get info for private invite links directly."
    else
      ret (CIString (if JS.startsWith lastPart "@" then lastPart else "@" ++ lastPart))
  else if negb (JS.startsWith reportLink "@") && negb (JS.isNaN reportLink) then
    ret (CINumber (JS.parseInt reportLink))
  else if negb (JS.startsWith reportLink "@") then
    throw "Invalid format for direct chat lookup. Please use @username or a numeric ID."
  else
    ret (CIString reportLink).

Definition truthy (x : option string) : bool :=
  match x with
  | None => false
  | Some EmptyString => false
  | Some _ => true
  end.

(** The [try] block. *)
Definition tryBlock (reportLink : string) : M Locals unit :=
  chatIdentifier <- chatIdentifierOf reportLink ;;
  chatInfo <- await (getChat chatIdentifier) ;;
  set_chat_id (JS.VNumber (JS.Int (ci_id chatInfo))) ;;
  set_chatTitle (JS.orDefault (ci_title chatInfo) "None") ;;
  if String.eqb (ci_type chatInfo) "channel" then
    set_chatType "Channel"
  else if String.eqb (ci_type chatInfo) "group"
          || String.eqb (ci_type chatInfo) "supergroup" then
    set_chatType "Group"
  else if String.eqb (ci_type chatInfo) "private" then
    set_chatType "Private Chat (User)"
  else if truthy (ci_username chatInfo) && ci_is_bot chatInfo then
    set_chatType "Bot"
  else
    ret tt.

(** The [catch] block: the fallback on the shape of the string. *)
Definition catchBlock (reportLink : string) (error : string) : M Locals unit :=
  if JS.includes reportLink "t.me/joinchat" then
    set_chatType "Group"
  else if JS.includes reportLink "t.me/" then
    if JS.startsWith reportLink "https://t.me/" then
      let parts := JS.split "/" reportLink in
      let lastPart := JS.lastOf parts in
      if JS.startsWith lastPart "@" then
        set_chatType "Bot/Channel (Username)" ;;
        set_chatTitle (JS.substring1 lastPart)
      else if negb (String.eqb lastPart "") then
        set_chatType "Bot/Channel (Link)" ;;
        set_chatTitle lastPart
      else
        ret tt
    else if JS.startsWith reportLink "@" then
      set_chatType "Bot/Channel (Username)" ;;
      set_chatTitle (JS.substring1 reportLink)
    else
      ret tt
  else
    ret tt.

(** The [try]/[catch] statement of [generateReport]. *)
Definition classify (reportLink : string) : M Locals unit :=
  tryCatch (tryBlock reportLink) (catchBlock reportLink).

(** The template literal [reportText]. *)
Definition reportText (chatType chatTitle : string) (chat_id : JS.value)
    (reportLink reasonType : string) : string :=
  "<b>Report Data:</b>" ++ nl ++ nl ++
  "<b>📝Text:</b> This content shared in this public bot includes spam for illegal channels that contain illegal images or videos. If a telegram user joins all the channels listed in the bot Once started, they will be sent illegal images or videos. It also violates Telegram's policy on adult content, especially when such content is accessible to minors and copyright infringement. It also shares a phishing link used to steal personal information and to scam Telegram users and steal credit cards and sensitive data." ++ nl ++ nl ++
  "<b>🗨️Chat Type:</b> " ++ chatType ++ nl ++
  "<b>🗨️Chat Title:</b> " ++ chatTitle ++ nl ++
  "<b>🗨️Chat ID:</b> " ++ JS.toString chat_id ++ nl ++
  "<b>🗨️Chat Link:</b> <code>" ++ reportLink ++ "</code>" ++ nl ++
  "<b>🗨️Relevant Laws:</b> " ++ reasonType ++ nl ++
  "<b>Name:</b> Not Available" ++ nl ++
  "<b>🗺️Address:</b> Not Available" ++ nl ++
  "<b>📞Phone Number:</b> Not Available" ++ nl ++
  "<b>📧E-Mail:</b> Not Available" ++ nl ++ nl ++
  "Thank you for helping keep Telegram safe!".

(** Runs a block on the [let] variables and hands back their final values;
    a throw that leaves the block leaves the caller too. *)
Definition withLocals {A : Type} (init : Locals) (block : M Locals A) : M Ctx Locals :=
  fun ctx =>
    match block init with
    | (Ok _, l) => (Ok l, ctx)
    | (Thrown e, _) => (Thrown e, ctx)
    end.

(** [generateReport(ctx)] *)
Definition generateReport : M Ctx unit :=
  s <- gets session ;;
  let reportLink := JS.orDefault (reportLink s) "N/A" in
  let reasonType := JS.orDefault (reasonType s) "User Provided" in
  let detailedReason :=
    JS.orDefault (detailedReason s) "No detailed explanation provided." in
  l <- withLocals initialLocals (classify reportLink) ;;
  send (ReplyWithHTML
          (reportText (chatType l) (chatTitle l) (chat_id l) reportLink reasonType)) ;;
  updateSession (fun _ => emptySession).

(** ** The scenes *)

(** [ctx.scene.leave()]: the scenes have no leave handler; the current scene
    is forgotten. *)
Definition sceneLeave : M Ctx unit :=
  updateSession (set_scenes_current None).

(** The prompt of [getLinkScene.enter]. *)
Definition getLinkScene_enter : M Ctx unit :=
  send (Reply ("✅ Session created! " ++ nl ++ nl ++ " Please provide the @username (e.g., @iPapkornBot) or a direct link (e.g., https://t.me/channelname) to the channel/group/bot you wish to report.")).

(** [ctx.scene.enter(id)]: leaves the current scene, records the new one and
    runs its enter handler ([getReason] has none). *)
Definition sceneEnter (id : SceneId) : M Ctx unit :=
  sceneLeave ;;
  updateSession (set_scenes_current (Some id)) ;;
  match id with
  | getLink => getLinkScene_enter
  | getReason => ret tt
  end.

(** The inline keyboard: label and callback data of each button. *)
Definition keyboard : list (string * string) :=
  [ ("Spam/Scam", "reason_spam");
    ("Illegal Content/Copyright Infringement", "reason_illegal_content");
    ("Phishing/Malware", "reason_phishing");
    ("Adult Content (Violates TOS)", "reason_adult_content");
    ("Other (I'll type it)", "reason_other") ].

(** [getLinkScene.on('text')] *)
Definition getLinkScene_text (text : string) : M Ctx unit :=
  updateSession (set_reportLink (JS.trim text)) ;;
  send (ReplyWithKeyboard
          "Please explain why this content is illegal under EU or EU member law:"
          keyboard) ;;
  sceneEnter getReason.

(** [getLinkScene.on('message')] *)
Definition getLinkScene_message : M Ctx unit :=
  send (Reply "Invalid input. Please provide a valid link or username.").

(** [word.charAt(0).toUpperCase() + word.slice(1)] *)
Definition capitalize (word : string) : string :=
  JS.toUpperCase (JS.charAt0 word) ++ JS.substring1 word.

(** The label of a predefined reason: line 65 of index.js. *)
Definition formatReason (reasonType : string) : string :=
  JS.join " "
    (map capitalize
       (JS.split " " (JS.underscoresToSpaces (JS.removeFirst reasonType "reason_")))).

(** [getReasonScene.action(/reason_/)]; [data] is the [reasonType] of the
    handler, the callback data of the button. *)
Definition getReasonScene_action (data : string) : M Ctx unit :=
  send AnswerCbQuery ;;
  if String.eqb data "reason_other" then
    send (EditMessageText "Please type your detailed reason for the report:") ;;
    updateSession (set_reasonType "User Provided")
  else
    updateSession (set_reasonType (formatReason data)) ;;
    s <- gets session ;;
    send (EditMessageText
            ("You selected: "
             ++ match reasonType s with Some v => v | None => "undefined" end
             ++ ". Please provide a detailed explanation now.")).

(** [getReasonScene.on('text')] *)
Definition getReasonScene_text (text : string) : M Ctx unit :=
  updateSession (set_detailedReason (JS.trim text)) ;;
  generateReport ;;
  sceneLeave.

(** [getReasonScene.on('message')] *)
Definition getReasonScene_message : M Ctx unit :=
  send (Reply "Please select a reason from the options or type your detailed explanation.").

(** ** The handlers of the bot *)

Definition welcomeMessage (u : Update) : string :=
  "Hello " ++ JS.orDefault (first_name u) "there" ++ "!" ++ nl ++ nl ++
  "I am your Telegram Report Bot. I can help you generate reports for " ++
  "illegal bots, channels, or groups on Telegram." ++ nl ++ nl ++
  "Here's what I can do:" ++ nl ++
  "➡️ /report - Start the process to generate a report." ++ nl ++
  "➡️ /help - Get more information about how to use me." ++ nl ++ nl ++
  "Let's make Telegram a safer place!".

Definition helpText : string :=
  "<b>How to use this bot:</b>" ++ nl ++ nl ++
  "1. Type /report to begin." ++ nl ++
  "2. I will ask you for the link or username of the bot/channel/group you want to report." ++ nl ++
  "3. Provide the link (e.g., <code>https://t.me/example</code>) or username (e.g., <code>@example</code>)." ++ nl ++
  "4. Next, I'll ask for the reason for the report. You can choose from predefined options or type your own detailed explanation." ++ nl ++
  "5. I will then generate a comprehensive report for you to copy and send to Telegram's official support (e.g., via their in-app reporting feature or email abuse@telegram.org)." ++ nl ++ nl ++
  "Remember to be as detailed as possible in your explanation to help Telegram investigate effectively.".

(** [bot.start] *)
Definition bot_start (u : Update) : M Ctx unit :=
  send (ReplyWithHTML (welcomeMessage u)).

(** [bot.help] *)
Definition bot_help : M Ctx unit :=
  send (ReplyWithHTML helpText).

(** [bot.command('report')] *)
Definition bot_report : M Ctx unit :=
  sceneEnter getLink.

(** [bot.command('cancel')] *)
Definition bot_cancel : M Ctx unit :=
  send (Reply "Report generation canceled. You can start a new one anytime with /report.") ;;
  updateSession (fun _ => emptySession) ;;
  sceneLeave.

Definition greetings : list string :=
  ["hi"; "hello"; "hey"; "hii"; "helo"; "hola"].

(** [bot.on('message')]; [text] is undefined for a message without text
    and falsy when empty. *)
Definition bot_message (u : Update) : M Ctx unit :=
  current <- gets (fun ctx => scenes_current (session ctx)) ;;
  match current with
  | Some _ => ret tt
  | None =>
      match payload u with
      | Text t =>
          let text := JS.toLowerCase t in
          if String.eqb text "" then ret tt
          else if existsb (String.eqb text) greetings then
            send (ReplyWithHTML (welcomeMessage u))
          else
            send (Reply "I didn't understand that. Please use /start, /help, or /report.")
      | _ => ret tt
      end
  end.

(** ** How Telegraf hands an update to the handlers

    The middleware run in the order of registration: the session, the
    stage, then [bot.start], [bot.help], the two commands and
    [bot.on('message')].  The stage gives the update to the handlers of the
    current scene, in their order; the first whose filter matches handles
    the update, and as none of the handlers of the program calls [next],
    nothing after it runs.  An update no handler of the scene matches goes
    on to the handlers of the bot. *)

Definition isCommandChar (c : ascii) : bool :=
  let n := nat_of_ascii c in
  ((48 <=? n)%nat && (n <=? 57)%nat)
  || ((65 <=? n)%nat && (n <=? 90)%nat)
  || ((97 <=? n)%nat && (n <=? 122)%nat)
  || (n =? 95)%nat.

Fixpoint commandName (s : string) : string * string :=
  match s with
  | EmptyString => (EmptyString, EmptyString)
  | String c r =>
      if isCommandChar c
      then let '(name, rest) := commandName r in (String c name, rest)
      else (EmptyString, s)
  end.

(** [ctx.me]: the username of the bot. *)
Variable me : string.

(** The command a text carries for this bot, as [Composer.command] of
    Telegraf reads it off the [bot_command] entity at offset 0.  The entity
    is "/" and a name, with "@" and a username when they follow.  The
    command is the name, unless the username is that of another bot; the
    usernames are compared in lower case. *)
Definition commandAt0 (text : string) : option string :=
  match text with
  | String "/" r =>
      let '(name, rest) := commandName r in
      if String.eqb name "" then None
      else match rest with
           | String "@" r' =>
               let '(to, _) := commandName r' in
               if String.eqb to "" then Some name
               else if String.eqb (JS.toLowerCase to) (JS.toLowerCase me)
                    then Some name
                    else None
           | _ => Some name
           end
  | _ => None
  end.

(** The handlers registered on the bot, after the stage. *)
Definition botHandlers (u : Update) : M Ctx unit :=
  match payload u with
  | Text t =>
      match commandAt0 t with
      | Some c =>
          if String.eqb c "start" then bot_start u
          else if String.eqb c "help" then bot_help
          else if String.eqb c "report" then bot_report
          else if String.eqb c "cancel" then bot_cancel
          else bot_message u
      | None => bot_message u
      end
  | NonText => bot_message u
  | Callback _ => ret tt
  end.

(** One update through the whole chain. *)
Definition handleUpdate (u : Update) : M Ctx unit :=
  current <- gets (fun ctx => scenes_current (session ctx)) ;;
  match current with
  | Some getLink =>
      match payload u with
      | Text t => getLinkScene_text t
      | NonText => getLinkScene_message
      | Callback _ => botHandlers u
      end
  | Some getReason =>
      match payload u with
      | Callback data =>
          if JS.includes data "reason_" then getReasonScene_action data
          else botHandlers u
      | Text t => getReasonScene_text t
      | NonText => getReasonScene_message
      end
  | None => botHandlers u
  end.

(** Updates one after the other; a throw ends the run. *)
Fixpoint handleUpdates (us : list Update) : M Ctx unit :=
  match us with
  | [] => ret tt
  | u :: rest => handleUpdate u ;; handleUpdates rest
  end.

End Bot.

(** ** The states of the dialogue, read off the session *)

Inductive State : Type :=
| Idle
| AwaitingLink
| AwaitingReason.

Definition stateOf (ctx : Ctx) : State :=
  match scenes_current (session ctx) with
  | None => Idle
  | Some getLink => AwaitingLink
  | Some getReason => AwaitingReason
  end.

Definition text (t : string) : Update := mkUpdate (Some "Ann") (Text t).
Definition button (data : string) : Update := mkUpdate (Some "Ann") (Callback data).

(** A resolver that rejects every lookup. *)
Definition failingGetChat (message : string) : ChatIdentifier -> Res ChatInfo :=
  fun _ => Thrown message.

(** ** Notions of the specification *)

(** The lookup of the [try] block fails: the block throws, before or at
    [getChat]. *)
Definition lookupFails (getChat : ChatIdentifier -> Res ChatInfo)
    (reportLink : string) : bool :=
  match fst (tryBlock getChat reportLink initialLocals) with
  | Thrown _ => true
  | Ok _ => false
  end.

(** The fallback alone: what the [catch] block leaves in the variables when
    it starts from their initial values. *)
Definition heuristic (reportLink : string) : Locals :=
  snd (catchBlock reportLink "" initialLocals).

(** The link and the reason [generateReport] reads from the session. *)
Definition linkOf (s : Session) : string := JS.orDefault (reportLink s) "N/A".
Definition reasonOf (s : Session) : string := JS.orDefault (reasonType s) "User Provided".

(** The report for a session and a classification. *)
Definition synthesize (s : Session) (c : Locals) : string :=
  reportText (chatType c) (chatTitle c) (chat_id c) (linkOf s) (reasonOf s).

(** A purely numeric id: decimal digits, after an optional minus sign. *)
Definition allDigits (s : string) : bool :=
  negb (String.eqb s "") && forallb JS.isDigit (list_ascii_of_string s).

Definition numericId (s : string) : bool :=
  match s with
  | String "-" r => allDigits r
  | _ => allDigits s
  end.

(** The characters a numeric id is made of. *)
Definition idChars : list ascii :=
  ["0"; "1"; "2"; "3"; "4"; "5"; "6"; "7"; "8"; "9"; "-"]%char.

(** The label of a category as the specification words it: underscores
    become spaces and the first letter of each word is capitalized.
    [start] tells whether the next character begins a word. *)
Fixpoint titleCase (start : bool) (s : string) : string :=
  match s with
  | EmptyString => EmptyString
  | String c r =>
      if Ascii.eqb c "_" || Ascii.eqb c " " then String " " (titleCase true r)
      else String (if start then JS.upper_ascii c else c) (titleCase false r)
  end.

(** The line of the report that holds the chat id. *)
Definition chatIdLine (chat_id : JS.value) : string :=
  "<b>🗨️Chat ID:</b> " ++ JS.toString chat_id ++ nl.

(** ** The dialogue as a table *)

(** Whether a text carries the command [name] at its start. *)
Definition isCommand (me t name : string) : bool :=
  match commandAt0 me t with
  | Some c => String.eqb c name
  | None => false
  end.

(** The state after an update, as a table of the state before and of the
    update alone. *)
Definition transition (me : string) (st : State) (u : Update) : State :=
  match st, payload u with
  | Idle, Text t => if isCommand me t "report" then AwaitingLink else Idle
  | Idle, _ => Idle
  | AwaitingLink, Text _ => AwaitingReason
  | AwaitingLink, _ => AwaitingLink
  | AwaitingReason, Text _ => Idle
  | AwaitingReason, _ => AwaitingReason
  end.

Definition isNone {A : Type} (x : option A) : bool :=
  match x with
  | None => true
  | Some _ => false
  end.

(** What the session holds in each state, between two updates: nothing
    outside the scene [getReason]; in it a link and no explanation. *)
Definition wellFormed (ctx : Ctx) : bool :=
  let s := session ctx in
  match scenes_current s with
  | Some getReason => negb (isNone (reportLink s)) && isNone (detailedReason s)
  | _ => isNone (reportLink s) && isNone (reasonType s) && isNone (detailedReason s)
  end.

(** The reply of a scene to a message without text. *)
Definition reprompt (current : option SceneId) : list Outgoing :=
  match current with
  | Some getLink => [Reply "Invalid input. Please provide a valid link or username."]
  | Some getReason =>
      [Reply "Please select a reason from the options or type your detailed explanation."]
  | None => []
  end.

(** The chat types a report can show. *)
Definition chatTypes : list string :=
  [ "Unknown"; "Channel"; "Group"; "Private Chat (User)"; "Bot";
    "Bot/Channel (Username)"; "Bot/Channel (Link)" ].

(** The lines of the report that hold the link and the reason. *)
Definition chatLinkLine (reportLink : string) : string :=
  "<b>🗨️Chat Link:</b> <code>" ++ reportLink ++ "</code>" ++ nl.

Definition relevantLawsLine (reasonType : string) : string :=
  "<b>🗨️Relevant Laws:</b> " ++ reasonType ++ nl.

Fixpoint hasChar (c : ascii) (s : string) : bool :=
  match s with
  | EmptyString => false
  | String x r => Ascii.eqb x c || hasChar c r
  end.

(** ** Start of the process: lines 7-22 and 255-281 *)

(** [process.env], the four variables the program reads. *)
Record Env : Type := mkEnv {
  BOT_TOKEN : option string;
  PORT : option string;
  WEBHOOK_URL : option string;
  NODE_ENV : option string
}.

(** How the start ends: [process.exit(code)], long polling, or the webhook
    listener on a path and a port. *)
Inductive Started : Type :=
| Exited (code : Z)
| LongPolling (token : string)
| WebhookListening (token url : string) (path : option string) (port : JS.value).

(** [process.env.NODE_ENV === 'production'] *)
Definition isProduction (env : Env) : bool :=
  match NODE_ENV env with
  | Some v => String.eqb v "production"
  | None => false
  end.

(** [process.env.PORT || 3000] *)
Definition portOf (env : Env) : JS.value :=
  match PORT env with
  | None => JS.VNumber (JS.Int 3000)
  | Some EmptyString => JS.VNumber (JS.Int 3000)
  | Some p => JS.VString p
  end.

(** The two checks of lines 13-22: the exit code, if one of them fails. *)
Definition checkEnv (env : Env) : option Z :=
  if negb (truthy (BOT_TOKEN env)) then Some 1%Z
  else if negb (truthy (WEBHOOK_URL env)) && isProduction env then Some 1%Z
  else None.

Section Launch.

(** [url.parse(u).pathname], a string or null. *)
Variable pathname : string -> option string.

(** [bot.telegram.setWebhook] and [bot.startWebhook]: each succeeds or
    throws. *)
Variable setWebhook : string -> Res unit.
Variable startWebhook : option string -> JS.value -> Res unit.

(** Lines 256-281: the webhook in production (a failure of [setWebhook] or
    of [startWebhook] reaches the [.catch], which exits), long polling
    otherwise.  These lines run after the checks, when the token and, in
    production, the URL are strings that are not empty. *)
Definition launch (env : Env) : Started :=
  let token := JS.orDefault (BOT_TOKEN env) "" in
  if isProduction env then
    let url := JS.orDefault (WEBHOOK_URL env) "" in
    let webhookPath := pathname url in
    match setWebhook url with
    | Thrown _ => Exited 1
    | Ok _ =>
        match startWebhook webhookPath (portOf env) with
        | Thrown _ => Exited 1
        | Ok _ => WebhookListening token url webhookPath (portOf env)
        end
    end
  else LongPolling token.

(** The program from its first line to the launch. *)
Definition main (env : Env) : Started :=
  match checkEnv env with
  | Some code => Exited code
  | None => launch env
  end.

End Launch.

(** ** The earlier version of the file (src/unnamed/part_000) *)

Module Earlier.

(** Lines 78-91: the classification, on the shape of the string alone. *)
Definition classify (reportLink : string) : string * string :=
  if JS.includes reportLink "t.me/joinchat" then ("Group", "Not Available")
  else if JS.includes reportLink "t.me/" then
    if JS.includes reportLink "@" then
      ("Bot/Channel (Username)", JS.lastOf (JS.split "@" reportLink))
    else
      ("Bot/Channel (Link)", JS.lastOf (JS.split "/" reportLink))
  else ("Unknown", "Not Available").

(** Lines 93-105: the template. *)
Definition reportText (chatType chatTitle reportLink reasonType detailedReason : string)
    : string :=
  "<b>--- Telegram Report ---</b>" ++ nl ++ nl ++
  "<b>Chat Type:</b> " ++ chatType ++ nl ++
  "<b>Chat Title:</b> " ++ chatTitle ++ nl ++
  "<b>Chat ID:</b> (Please find this if possible, e.g., using a bot like @userinfobot if it's a bot/channel)" ++ nl ++
  "<b>Chat Link/Username:</b> <code>" ++ reportLink ++ "</code>" ++ nl ++
  "<b>Relevant Laws/Violations:</b> " ++ reasonType ++ nl ++
  "<b>Explanation:</b> " ++ detailedReason ++ nl ++ nl ++
  "<b>--- End of Report ---</b>" ++ nl ++ nl ++
  "Please copy this report and send it to Telegram's official support " ++
  "(e.g., via the in-app reporting feature or email abuse@telegram.org)." ++ nl ++
  "Thank you for helping keep Telegram safe!".

(** Lines 73-111: [generateReport(ctx)]. *)
Definition generateReport : M Ctx unit :=
  (s <- gets session ;;
   let reportLink := JS.orDefault (reportLink s) "N/A" in
   let reasonType := JS.orDefault (reasonType s) "User Provided" in
   let detailedReason :=
     JS.orDefault (detailedReason s) "No detailed explanation provided." in
   let '(chatType, chatTitle) := classify reportLink in
   send (ReplyWithHTML
           (reportText chatType chatTitle reportLink reasonType detailedReason)) ;;
   updateSession (fun _ => emptySession))%js.

(** Lines 58-63: [getReasonScene.on('text')], which stores the text as it
    is. *)
Definition getReasonScene_text (text : string) : M Ctx unit :=
  (updateSession (set_detailedReason text) ;;
   generateReport ;;
   sceneLeave)%js.

(** The line of the report that holds the explanation. *)
Definition explanationLine (detailedReason : string) : string :=
  "<b>Explanation:</b> " ++ detailedReason ++ nl.

End Earlier.

(** ** The fallback as a table, and the report up to its reply *)




(** Lines 85-170 of [generateReport]: all of it but its last statement,
    [ctx.session = {}]. *)
Definition reportAndReply (getChat : ChatIdentifier -> Res ChatInfo) : M Ctx unit :=
  (s <- gets session ;;
   let reportLink := JS.orDefault (reportLink s) "N/A" in
   let reasonType := JS.orDefault (reasonType s) "User Provided" in
   let detailedReason :=
     JS.orDefault (detailedReason s) "No detailed explanation provided." in
   l <- withLocals initialLocals (classify getChat reportLink) ;;
   send (ReplyWithHTML
           (reportText (chatType l) (chatTitle l) (chat_id l) reportLink reasonType)))%js.

(** Whether every character of a string is an ASCII character. *)
Definition isAscii (s : string) : bool :=
  forallb (fun c => (nat_of_ascii c <? 128)%nat) (list_ascii_of_string s).

(** ** The builtins on samples *)

Example split_link :
  JS.split "/" "https://t.me/joinchat/abc" = ["https:"; ""; "t.me"; "joinchat"; "abc"].
Proof. reflexivity. Qed.

Example trim_spaces : JS.trim "  @name 	" = "@name".
Proof. reflexivity. Qed.

Example isNaN_samples :
  map JS.isNaN ["123"; "-1001234"; "1e5"; "0x1F"; ".5"; "5."; "."; "abc"; "12a"; "Infinity"; "N/A"; "+"]
  = [false; false; false; false; false; false; true; true; true; false; true; true].
Proof. reflexivity. Qed.

Example parseInt_samples :
  map JS.parseInt ["123"; "-1001234"; "1e5"; "0x1F"; ".5"; "Infinity"; "12a"]
  = [JS.Int 123; JS.Int (-1001234); JS.Int 1; JS.Int 31; JS.NaN; JS.NaN; JS.Int 12].
Proof. reflexivity. Qed.

Example commandAt0_samples :
  map (commandAt0 "MandiusBot")
    [ "/report"; "/report now"; "/report@MandiusBot"; "/report@mandiusbot now";
      "/report@OtherBot"; "/reports"; "report"; " /report"; "/" ]
  = [ Some "report"; Some "report"; Some "report"; Some "report";
      None; Some "reports"; None; None; None ].
Proof. reflexivity. Qed.

Example transition_addressed_report :
  transition "MandiusBot" Idle (mkUpdate None (Text "/report@MANDIUSBOT")) = AwaitingLink
  /\ transition "MandiusBot" Idle (mkUpdate None (Text "/report@OtherBot")) = Idle
  /\ stateOf (snd (handleUpdate (failingGetChat "x") "MandiusBot"
                     (mkUpdate None (Text "/report@MandiusBot")) emptyCtx))
     = AwaitingLink.
Proof. repeat split. Qed.

(** ** The [try] and [catch] blocks *)

Ltac split_ifs :=
  repeat match goal with
         | |- context [if ?b then _ else _] => destruct b
         end.

Lemma chatIdentifierOf_keeps_locals reportLink l :
  snd (chatIdentifierOf reportLink l) = l.
Proof. unfold chatIdentifierOf. split_ifs; reflexivity. Qed.

Lemma after_getChat_ok (info : ChatInfo) (l : Locals) :
  exists ct,
    (set_chat_id (JS.VNumber (JS.Int (ci_id info))) ;;
     set_chatTitle (JS.orDefault (ci_title info) "None") ;;
     if String.eqb (ci_type info) "channel" then set_chatType "Channel"
     else if String.eqb (ci_type info) "group"
             || String.eqb (ci_type info) "supergroup" then set_chatType "Group"
     else if String.eqb (ci_type info) "private" then set_chatType "Private Chat (User)"
     else if truthy (ci_username info) && ci_is_bot info then set_chatType "Bot"
     else ret tt)%js l
    = (Ok tt, mkLocals ct (JS.orDefault (ci_title info) "None")
                (JS.VNumber (JS.Int (ci_id info)))).
Proof.
  unfold bind, set_chat_id, set_chatTitle, set_chatType, modify, ret; cbn.
  split_ifs; cbn; eexists; reflexivity.
Qed.

(** What the [try] block does, by cases on the identifier and on the answer
    of [getChat]. *)
Lemma tryBlock_cases getChat reportLink l :
  (exists e, tryBlock getChat reportLink l = (Thrown e, l))
  \/ (exists ident info ct,
        chatIdentifierOf reportLink l = (Ok ident, l)
        /\ getChat ident = Ok info
        /\ tryBlock getChat reportLink l
           = (Ok tt, mkLocals ct (JS.orDefault (ci_title info) "None")
                       (JS.VNumber (JS.Int (ci_id info))))).
Proof.
  pose proof (chatIdentifierOf_keeps_locals reportLink l) as Hl.
  destruct (chatIdentifierOf reportLink l) as [[ident | e] l'] eqn:Hid;
    cbn in Hl; subst l'.
  - destruct (getChat ident) as [info | e] eqn:Hg.
    + right. destruct (after_getChat_ok info l) as [ct Hct].
      exists ident, info, ct. split; [reflexivity | split; [exact Hg | ]].
      unfold tryBlock. unfold bind at 1. rewrite Hid.
      unfold bind at 1, await. rewrite Hg. exact Hct.
    + left. exists e. unfold tryBlock. unfold bind at 1. rewrite Hid.
      unfold bind at 1, await. rewrite Hg. reflexivity.
  - left. exists e. unfold tryBlock. unfold bind at 1. rewrite Hid. reflexivity.
Qed.

Lemma tryBlock_thrown_keeps_locals getChat reportLink l e l' :
  tryBlock getChat reportLink l = (Thrown e, l') -> l' = l.
Proof.
  intros H.
  destruct (tryBlock_cases getChat reportLink l) as [[e0 H0] | (ident & info & ct & _ & _ & H0)];
    rewrite H0 in H; congruence.
Qed.

(** The [catch] block does not throw, does not read the error and leaves
    [chat_id] alone. *)
Lemma catchBlock_ok reportLink error l :
  exists ct ctl,
    catchBlock reportLink error l = (Ok tt, mkLocals ct ctl (chat_id l)).
Proof.
  destruct l as [ct0 ctl0 id0].
  unfold catchBlock, bind, set_chatType, set_chatTitle, modify, ret.
  split_ifs; cbn; do 2 eexists; reflexivity.
Qed.

Lemma catchBlock_error_irrelevant reportLink e1 e2 l :
  catchBlock reportLink e1 l = catchBlock reportLink e2 l.
Proof. reflexivity. Qed.

Lemma classify_after_throw getChat reportLink e l :
  tryBlock getChat reportLink initialLocals = (Thrown e, l) ->
  classify getChat reportLink initialLocals = (Ok tt, heuristic reportLink).
Proof.
  intros H. pose proof (tryBlock_thrown_keeps_locals _ _ _ _ _ H) as ->.
  unfold classify, tryCatch, heuristic. rewrite H.
  destruct (catchBlock_ok reportLink e initialLocals) as (ct & ctl & Hc).
  rewrite (catchBlock_error_irrelevant reportLink "" e). rewrite Hc. reflexivity.
Qed.

Lemma lookupFails_thrown getChat reportLink :
  lookupFails getChat reportLink = true ->
  exists e, tryBlock getChat reportLink initialLocals = (Thrown e, initialLocals).
Proof.
  unfold lookupFails. intros H.
  destruct (tryBlock_cases getChat reportLink initialLocals)
    as [[e H0] | (ident & info & ct & _ & _ & H0)].
  - exists e. exact H0.
  - rewrite H0 in H. discriminate.
Qed.

Lemma classify_lookupFails getChat reportLink :
  lookupFails getChat reportLink = true ->
  classify getChat reportLink initialLocals = (Ok tt, heuristic reportLink).
Proof.
  intros H. destruct (lookupFails_thrown _ _ H) as [e He].
  exact (classify_after_throw _ _ _ _ He).
Qed.

Lemma classify_ok getChat reportLink :
  fst (classify getChat reportLink initialLocals) = Ok tt.
Proof.
  destruct (tryBlock_cases getChat reportLink initialLocals)
    as [[e H0] | (ident & info & ct & _ & _ & H0)].
  - rewrite (classify_after_throw _ _ _ _ H0). reflexivity.
  - unfold classify, tryCatch. rewrite H0. reflexivity.
Qed.

(** [generateReport] sends the report for the session and the
    classification, and leaves an empty session. *)
Lemma generateReport_spec getChat ctx :
  generateReport getChat ctx
  = (Ok tt,
     mkCtx emptySession
       (sent ctx
        ++ [ReplyWithHTML
              (synthesize (session ctx)
                 (snd (classify getChat (linkOf (session ctx)) initialLocals)))])).
Proof.
  unfold generateReport, bind, gets, withLocals, send, updateSession, modify, synthesize.
  cbn.
  pose proof (classify_ok getChat (linkOf (session ctx))) as Hok.
  unfold linkOf in *.
  destruct (classify getChat (JS.orDefault (reportLink (session ctx)) "N/A") initialLocals)
    as [[[] | e] l]; cbn in *; [reflexivity | discriminate].
Qed.

(** ** Numeric ids and the fallback *)

Lemma includes_first_char_absent (s : string) (c : ascii) (p : string) :
  (forall x, In x (list_ascii_of_string s) -> x <> c) ->
  JS.includes s (String c p) = false.
Proof.
  induction s as [| a s IH]; intros H.
  - reflexivity.
  - cbn [JS.includes String.prefix].
    destruct (ascii_dec c a) as [-> | _].
    + exfalso. apply (H a); [left; reflexivity | reflexivity].
    + cbn. apply IH. intros x Hx. apply H. right. exact Hx.
Qed.

Lemma allDigits_chars (s : string) :
  allDigits s = true ->
  forall x, In x (list_ascii_of_string s) -> JS.isDigit x = true.
Proof.
  unfold allDigits. intros H x Hx.
  apply andb_true_iff in H. destruct H as [_ H].
  rewrite forallb_forall in H. exact (H x Hx).
Qed.

Lemma numericId_no_t (s : string) :
  numericId s = true ->
  forall x, In x (list_ascii_of_string s) -> x <> "t"%char.
Proof.
  intros H x Hx ->.
  assert (Hd : forall r, allDigits r = true ->
                         In "t"%char (list_ascii_of_string r) -> False).
  { intros r Hr Hin. pose proof (allDigits_chars r Hr _ Hin) as E.
    cbv in E. discriminate. }
  destruct s as [| a r].
  - destruct Hx.
  - unfold numericId in H.
    destruct (ascii_dec a "-") as [-> | Hne].
    + destruct Hx as [Hx | Hx]; [discriminate | exact (Hd r H Hx)].
    + assert (Hs : allDigits (String a r) = true).
      { destruct a as [[] [] [] [] [] [] [] []]; try exact H;
          exfalso; apply Hne; reflexivity. }
      exact (Hd _ Hs Hx).
Qed.

(** The fallback has no rule for a numeric id. *)
Lemma heuristic_numericId (s : string) :
  numericId s = true -> heuristic s = initialLocals.
Proof.
  intros H. unfold heuristic, catchBlock.
  rewrite (includes_first_char_absent s "t" ".me/joinchat" (numericId_no_t s H)).
  rewrite (includes_first_char_absent s "t" ".me/" (numericId_no_t s H)).
  reflexivity.
Qed.

(** *** A numeric id is looked up as a number *)

Lemma isDigit_idChars (c : ascii) : JS.isDigit c = true -> In c idChars.
Proof.
  destruct c as [[] [] [] [] [] [] [] []]; intros H; try discriminate H;
    cbn; tauto.
Qed.

Lemma ws3_last_idChar (a b c : ascii) : In c idChars -> JS.ws3 a b c = false.
Proof.
  intros H. unfold JS.ws3.
  cbn in H. repeat (destruct H as [<- | H]; [cbn; rewrite ?andb_false_r; reflexivity | ]).
  destruct H.
Qed.

Lemma stripFront_idChar (backwards : bool) (c : ascii) (r : list ascii) :
  In c idChars -> JS.stripFront backwards (c :: r) = c :: r.
Proof.
  intros H.
  assert (H1 : JS.ws1 c = false).
  { cbn in H. repeat (destruct H as [<- | H]; [reflexivity | ]). destruct H. }
  assert (H2 : forall b, JS.ws2 c b = false).
  { intros b. cbn in H. repeat (destruct H as [<- | H]; [reflexivity | ]). destruct H. }
  assert (H2' : forall b, JS.ws2 b c = false).
  { intros b. unfold JS.ws2. cbn in H.
    repeat (destruct H as [<- | H]; [apply andb_false_r | ]). destruct H. }
  assert (H3 : forall a b, JS.ws3 c a b = false).
  { intros a b. cbn in H. repeat (destruct H as [<- | H]; [reflexivity | ]). destruct H. }
  pose proof (fun a b => ws3_last_idChar a b c H) as H3'.
  cbn [JS.stripFront]. rewrite H1.
  destruct r as [| c2 [| c3 r3]]; [reflexivity | | ];
    destruct backwards; rewrite ?H2, ?H2', ?H3, ?H3'; reflexivity.
Qed.

Lemma isDigit_digitValue (c : ascii) :
  JS.isDigit c = true -> exists v, JS.digitValue 10 c = Some v.
Proof.
  destruct c as [[] [] [] [] [] [] [] []]; intros H; try discriminate H;
    eexists; reflexivity.
Qed.

Lemma skipDigits_digits (d : list ascii) :
  forallb JS.isDigit d = true ->
  JS.skipDigits 10 d = (match d with [] => false | _ :: _ => true end, []).
Proof.
  induction d as [| c r IH]; intros H; [reflexivity | ].
  cbn in H. apply andb_true_iff in H. destruct H as [Hc Hr].
  cbn [JS.skipDigits]. destruct (isDigit_digitValue c Hc) as [v ->].
  rewrite (IH Hr). reflexivity.
Qed.

(** The characters of a numeric id: digits, after "-" or not. *)
Lemma numericId_shape (s : string) :
  numericId s = true ->
  exists c d,
    forallb JS.isDigit (c :: d) = true
    /\ (list_ascii_of_string s = c :: d \/ list_ascii_of_string s = "-"%char :: c :: d).
Proof.
  assert (Hall : forall r, allDigits r = true ->
            exists c d, forallb JS.isDigit (c :: d) = true
                        /\ list_ascii_of_string r = c :: d).
  { intros r Hr. unfold allDigits in Hr. apply andb_true_iff in Hr.
    destruct Hr as [Hne Hd]. destruct r as [| c r]; [discriminate | ].
    exists c, (list_ascii_of_string r). split; [exact Hd | reflexivity]. }
  intros H. destruct s as [| a r].
  - discriminate.
  - destruct (ascii_dec a "-") as [-> | Hne].
    + destruct (Hall r H) as (c & d & Hd & E). exists c, d.
      split; [exact Hd | right; cbn; rewrite E; reflexivity].
    + assert (Hs : allDigits (String a r) = true).
      { unfold numericId in H.
        destruct a as [[] [] [] [] [] [] [] []]; try exact H;
          exfalso; apply Hne; reflexivity. }
      destruct (Hall _ Hs) as (c & d & Hd & E). exists c, d.
      split; [exact Hd | left; exact E].
Qed.

Lemma rev_head_digit (c : ascii) (d : list ascii) :
  forallb JS.isDigit (c :: d) = true ->
  exists c' d', rev (c :: d) = c' :: d' /\ JS.isDigit c' = true.
Proof.
  intros H. destruct (rev (c :: d)) as [| c' d'] eqn:E.
  - apply (f_equal (@List.length ascii)) in E. rewrite length_rev in E. discriminate.
  - exists c', d'. split; [reflexivity | ].
    rewrite forallb_forall in H. apply H. apply in_rev. rewrite E. left. reflexivity.
Qed.

Lemma trim_numericId_chars (l : list ascii) (c : ascii) (d : list ascii) :
  forallb JS.isDigit (c :: d) = true ->
  l = c :: d \/ l = "-"%char :: c :: d ->
  JS.trimEndL (JS.trimStartL l) = l.
Proof.
  intros Hd Hl.
  assert (Hc : In c idChars).
  { apply isDigit_idChars. cbn in Hd. apply andb_true_iff in Hd. tauto. }
  assert (Hstart : JS.trimStartL l = l).
  { unfold JS.trimStartL. destruct Hl as [-> | ->]; apply stripFront_idChar.
    - exact Hc.
    - cbn; tauto. }
  rewrite Hstart. unfold JS.trimEndL.
  destruct (rev_head_digit c d Hd) as (c' & d' & E & Hc').
  assert (Hrev : exists r, rev l = c' :: r).
  { destruct Hl as [-> | ->].
    - exists d'. exact E.
    - exists (d' ++ ["-"%char])%list.
      change (rev ("-"%char :: c :: d)) with (rev (c :: d) ++ ["-"%char])%list.
      rewrite E. reflexivity. }
  destruct Hrev as [r Hr]. rewrite Hr.
  rewrite (stripFront_idChar true c' r (isDigit_idChars c' Hc')).
  rewrite <- Hr. apply rev_involutive.
Qed.

Lemma isNaN_numericId (s : string) : numericId s = true -> JS.isNaN s = false.
Proof.
  intros H. destruct (numericId_shape s H) as (c & d & Hd & Hl).
  unfold JS.isNaN, JS.isNumericString.
  rewrite (trim_numericId_chars _ c d Hd Hl).
  assert (Hu : JS.unsignedDecimal (c :: d) = true).
  { unfold JS.unsignedDecimal.
    destruct (list_eq_dec ascii_dec (c :: d) (list_ascii_of_string "Infinity"));
      [reflexivity | ].
    rewrite (skipDigits_digits _ Hd). reflexivity. }
  assert (Hc : JS.isDigit c = true).
  { cbn in Hd. apply andb_true_iff in Hd. tauto. }
  destruct Hl as [-> | ->].
  - assert (Hs : JS.skipSign (c :: d) = c :: d).
    { destruct c as [[] [] [] [] [] [] [] []]; try discriminate Hc; reflexivity. }
    rewrite Hs, Hu. rewrite orb_true_r. reflexivity.
  - cbn [JS.skipSign Ascii.eqb Bool.eqb orb andb]. cbn.
    rewrite Hu. reflexivity.
Qed.

Lemma chatIdentifierOf_numericId (s : string) (l : Locals) :
  numericId s = true ->
  chatIdentifierOf s l = (Ok (CINumber (JS.parseInt s)), l).
Proof.
  intros H. unfold chatIdentifierOf.
  rewrite (isNaN_numericId s H).
  destruct (numericId_shape s H) as (c & d & Hd & Hl).
  assert (Hc : JS.isDigit c = true).
  { cbn in Hd. apply andb_true_iff in Hd. tauto. }
  assert (Hfirst : exists a r, s = String a r /\ a <> "h"%char /\ a <> "@"%char).
  { destruct s as [| a r]; [destruct Hl; discriminate | ].
    exists a, r. split; [reflexivity | ].
    destruct Hl as [E | E]; cbn in E; injection E as -> _.
    - split; intros ->; discriminate Hc.
    - split; discriminate. }
  destruct Hfirst as (a & r & -> & Hh & Hat).
  unfold JS.startsWith. cbn [String.prefix].
  destruct (ascii_dec "h" a) as [E | _]; [exfalso; apply Hh; symmetry; exact E | ].
  destruct (ascii_dec "@" a) as [E | _]; [exfalso; apply Hat; symmetry; exact E | ].
  reflexivity.
Qed.

(** C1, as the program has it.  A purely numeric id is looked up as a
    number; when that lookup is rejected, the classifier does not raise and
    returns the initial values: chat type "Unknown", chat title "None" and
    the placeholder for the id.  The fallback has rules for links and for
    "@", none for a number. *)
Theorem numeric_id_fallback_is_unknown
    (getChat : ChatIdentifier -> Res ChatInfo) (reportLink e : string) :
  numericId reportLink = true ->
  getChat (CINumber (JS.parseInt reportLink)) = Thrown e ->
  lookupFails getChat reportLink = true
  /\ classify getChat reportLink initialLocals = (Ok tt, initialLocals)
  /\ chatType (snd (classify getChat reportLink initialLocals)) = "Unknown"
  /\ chatTitle (snd (classify getChat reportLink initialLocals)) = "None".
Proof.
  intros Hnum Hg.
  assert (Hfail : lookupFails getChat reportLink = true).
  { unfold lookupFails, tryBlock. unfold bind at 1.
    rewrite (chatIdentifierOf_numericId _ _ Hnum).
    unfold bind at 1, await. rewrite Hg. reflexivity. }
  split; [exact Hfail | ].
  rewrite (classify_lookupFails _ _ Hfail), (heuristic_numericId _ Hnum).
  repeat split.
Qed.

Lemma numeric_id_fallback_is_unknown_witness :
  numericId "-1001234567890" = true
  /\ failingGetChat "Bad Request: chat not found" (CINumber (JS.parseInt "-1001234567890"))
     = Thrown "Bad Request: chat not found"
  /\ classify (failingGetChat "Bad Request: chat not found") "-1001234567890" initialLocals
     = (Ok tt, initialLocals).
Proof.
  split; [reflexivity | split; [reflexivity | ]].
  apply (numeric_id_fallback_is_unknown
           (failingGetChat "Bad Request: chat not found") "-1001234567890"
           "Bad Request: chat not found");
    reflexivity.
Defined.

(** C1, as the specification words it, fails: the numeric id "123456789"
    with a resolver that rejects is not classified "Bot/Channel (Username)"
    with the id as title. *)
Lemma numeric_id_is_not_a_username :
  numericId "123456789" = true
  /\ lookupFails (failingGetChat "Bad Request: chat not found") "123456789" = true
  /\ ~ (chatType (snd (classify (failingGetChat "Bad Request: chat not found")
                         "123456789" initialLocals))
        = "Bot/Channel (Username)"
        /\ chatTitle (snd (classify (failingGetChat "Bad Request: chat not found")
                             "123456789" initialLocals))
           = "123456789").
Proof.
  split; [reflexivity | split; [reflexivity | ]].
  intros [H _]. cbv in H. discriminate.
Qed.

(** The rule for a leading "@" stands inside the test for "t.me/": a plain
    @username never reaches it. *)
Example plain_username_fallback :
  classify (failingGetChat "Bad Request: chat not found") "@iPapkornBot" initialLocals
  = (Ok tt, initialLocals)
  /\ classify (failingGetChat "Bad Request: chat not found") "@t.me/x" initialLocals
     = (Ok tt, mkLocals "Bot/Channel (Username)" "t.me/x" (JS.VString chat_id_placeholder)).
Proof. split; reflexivity. Qed.

(** A string that is neither a link, a number nor an @username makes the
    [try] block throw before any lookup; an invite link with "+" does too,
    and the fallback then reads it as a link. *)
Example unknown_shape_fallback :
  classify (fun _ => Ok (mkChatInfo 1 (Some "x") "channel" None false))
    "some channel" initialLocals
  = (Ok tt, initialLocals)
  /\ classify (fun _ => Ok (mkChatInfo 1 (Some "x") "channel" None false))
       "https://t.me/+AbCdEf" initialLocals
     = (Ok tt, mkLocals "Bot/Channel (Link)" "+AbCdEf" (JS.VString chat_id_placeholder)).
Proof. split; reflexivity. Qed.

(** C8.  For "https://t.me/joinchat/abc" the program looks up "@abc"; when
    that lookup is rejected, the chat type is "Group" (title and id keep
    their initial values), and the report says so. *)
Theorem joinchat_link_is_group
    (getChat : ChatIdentifier -> Res ChatInfo) (e : string) (s : Session) (out : list Outgoing) :
  getChat (CIString "@abc") = Thrown e ->
  reportLink s = Some "https://t.me/joinchat/abc" ->
  classify getChat "https://t.me/joinchat/abc" initialLocals
  = (Ok tt, mkLocals "Group" "None" (JS.VString chat_id_placeholder))
  /\ generateReport getChat (mkCtx s out)
     = (Ok tt,
        mkCtx emptySession
          (out ++ [ReplyWithHTML
                     (reportText "Group" "None" (JS.VString chat_id_placeholder)
                        "https://t.me/joinchat/abc" (reasonOf s))])).
Proof.
  intros Hg Hs.
  assert (Hc : classify getChat "https://t.me/joinchat/abc" initialLocals
               = (Ok tt, mkLocals "Group" "None" (JS.VString chat_id_placeholder))).
  { unfold classify, tryCatch, tryBlock. unfold bind at 1. cbn.
    rewrite Hg. reflexivity. }
  split; [exact Hc | ].
  rewrite generateReport_spec. cbn [session sent].
  unfold synthesize, linkOf. rewrite Hs. cbn [JS.orDefault].
  rewrite Hc. reflexivity.
Qed.

Lemma joinchat_link_is_group_witness :
  chatType
    (snd (classify (failingGetChat "Bad Request: chat not found")
            "https://t.me/joinchat/abc" initialLocals))
  = "Group".
Proof.
  pose proof (joinchat_link_is_group
                (failingGetChat "Bad Request: chat not found")
                "Bad Request: chat not found"
                (mkSession (Some "https://t.me/joinchat/abc") None None (Some getReason))
                [] eq_refl eq_refl) as [H _].
  rewrite H. reflexivity.
Defined.

(** ** The lookup *)

(** C5.  When the identifier is accepted and [getChat] answers, the
    classification is read off the answer: the type by the table
    ("channel", "group" or "supergroup", "private", else a username with
    [is_bot]), the id as it is, the title as it is when the answer has one
    ("None" stands for a missing or empty title); and the report carries
    the three. *)
Theorem lookup_success_mapping
    (getChat : ChatIdentifier -> Res ChatInfo) (ctx : Ctx)
    (ident : ChatIdentifier) (info : ChatInfo) :
  chatIdentifierOf (linkOf (session ctx)) initialLocals = (Ok ident, initialLocals) ->
  getChat ident = Ok info ->
  let c := snd (classify getChat (linkOf (session ctx)) initialLocals) in
  fst (classify getChat (linkOf (session ctx)) initialLocals) = Ok tt
  /\ chat_id c = JS.VNumber (JS.Int (ci_id info))
  /\ JS.toString (chat_id c) = NilZero.string_of_int (Z.to_int (ci_id info))
  /\ chatTitle c = JS.orDefault (ci_title info) "None"
  /\ (forall t, ci_title info = Some t -> t <> "" -> chatTitle c = t)
  /\ (ci_type info = "channel" -> chatType c = "Channel")
  /\ (ci_type info = "group" \/ ci_type info = "supergroup" -> chatType c = "Group")
  /\ (ci_type info = "private" -> chatType c = "Private Chat (User)")
  /\ (ci_type info <> "channel" -> ci_type info <> "group" ->
      ci_type info <> "supergroup" -> ci_type info <> "private" ->
      truthy (ci_username info) = true -> ci_is_bot info = true ->
      chatType c = "Bot")
  /\ generateReport getChat ctx
     = (Ok tt,
        mkCtx emptySession
          (sent ctx
           ++ [ReplyWithHTML
                 (reportText (chatType c) (JS.orDefault (ci_title info) "None")
                    (JS.VNumber (JS.Int (ci_id info)))
                    (linkOf (session ctx)) (reasonOf (session ctx)))])).
Proof.
  intros Hid Hg c.
  assert (Hc : classify getChat (linkOf (session ctx)) initialLocals
               = (set_chat_id (JS.VNumber (JS.Int (ci_id info))) ;;
                  set_chatTitle (JS.orDefault (ci_title info) "None") ;;
                  if String.eqb (ci_type info) "channel" then set_chatType "Channel"
                  else if String.eqb (ci_type info) "group"
                          || String.eqb (ci_type info) "supergroup"
                       then set_chatType "Group"
                  else if String.eqb (ci_type info) "private"
                       then set_chatType "Private Chat (User)"
                  else if truthy (ci_username info) && ci_is_bot info
                       then set_chatType "Bot"
                  else ret tt)%js initialLocals).
  { destruct (after_getChat_ok info initialLocals) as [ct Hct].
    unfold classify, tryCatch, tryBlock. unfold bind at 1. rewrite Hid.
    unfold bind at 1, await. rewrite Hg. rewrite Hct. reflexivity. }
  destruct (after_getChat_ok info initialLocals) as [ct Hct].
  assert (Hcv : c = mkLocals ct (JS.orDefault (ci_title info) "None")
                      (JS.VNumber (JS.Int (ci_id info)))).
  { unfold c. rewrite Hc, Hct. reflexivity. }
  assert (Hty : chatType c
                = chatType (snd ((if String.eqb (ci_type info) "channel"
                                  then set_chatType "Channel"
                                  else if String.eqb (ci_type info) "group"
                                          || String.eqb (ci_type info) "supergroup"
                                       then set_chatType "Group"
                                  else if String.eqb (ci_type info) "private"
                                       then set_chatType "Private Chat (User)"
                                  else if truthy (ci_username info) && ci_is_bot info
                                       then set_chatType "Bot"
                                  else ret tt) initialLocals))).
  { unfold c. rewrite Hc.
    unfold bind, set_chat_id, set_chatTitle, set_chatType, modify, ret. cbn.
    split_ifs; reflexivity. }
  split; [rewrite Hc, Hct; reflexivity | ].
  split; [rewrite Hcv; reflexivity | ].
  split; [rewrite Hcv; reflexivity | ].
  split; [rewrite Hcv; reflexivity | ].
  split.
  { intros t Ht Hne. rewrite Hcv. cbn [chatTitle]. rewrite Ht.
    destruct t; [contradiction | reflexivity]. }
  split.
  { intros E. rewrite Hty, E. reflexivity. }
  split.
  { intros [E | E]; rewrite Hty, E; reflexivity. }
  split.
  { intros E. rewrite Hty, E. reflexivity. }
  split.
  { intros N1 N2 N3 N4 Hu Hb. rewrite Hty.
    apply String.eqb_neq in N1, N2, N3, N4.
    rewrite N1, N2, N3, N4, Hu, Hb. reflexivity. }
  rewrite generateReport_spec. unfold synthesize. fold c.
  rewrite Hcv. reflexivity.
Qed.

Lemma lookup_success_mapping_witness :
  let getChat := fun _ : ChatIdentifier =>
                   Ok (mkChatInfo 42 (Some "Spam Bot") "supergroup" None false) in
  let c := snd (classify getChat "@iPapkornBot" initialLocals) in
  chatType c = "Group" /\ chatTitle c = "Spam Bot" /\ JS.toString (chat_id c) = "42".
Proof.
  intros getChat c.
  destruct (lookup_success_mapping getChat
              (mkCtx (mkSession (Some "@iPapkornBot") None None (Some getReason)) [])
              (CIString "@iPapkornBot")
              (mkChatInfo 42 (Some "Spam Bot") "supergroup" None false)
              eq_refl eq_refl)
    as (_ & _ & Hid & _ & Htitle & _ & Hgroup & _).
  split; [apply Hgroup; right; reflexivity | ].
  split; [apply (Htitle "Spam Bot"); [reflexivity | discriminate] | exact Hid].
Defined.

(** ** The handlers never throw *)

Lemma getLinkScene_text_spec (t : string) (ctx : Ctx) :
  getLinkScene_text t ctx
  = (Ok tt,
     mkCtx (mkSession (Some (JS.trim t)) (reasonType (session ctx))
              (detailedReason (session ctx)) (Some getReason))
       (sent ctx
        ++ [ReplyWithKeyboard
              "Please explain why this content is illegal under EU or EU member law:"
              keyboard])).
Proof. reflexivity. Qed.

Lemma getReasonScene_action_spec (data : string) (ctx : Ctx) :
  exists msg,
    getReasonScene_action data ctx
    = (Ok tt,
       mkCtx (set_reasonType
                (if String.eqb data "reason_other" then "User Provided"
                 else formatReason data)
                (session ctx))
         (sent ctx ++ [AnswerCbQuery; EditMessageText msg])).
Proof.
  unfold getReasonScene_action.
  destruct (String.eqb data "reason_other"); eexists;
    unfold bind, send, updateSession, modify, gets; cbn;
    rewrite <- app_assoc; reflexivity.
Qed.

Lemma getReasonScene_text_spec getChat (t : string) (ctx : Ctx) :
  getReasonScene_text getChat t ctx
  = (Ok tt,
     mkCtx emptySession
       (sent ctx
        ++ [ReplyWithHTML
              (synthesize (set_detailedReason (JS.trim t) (session ctx))
                 (snd (classify getChat (linkOf (session ctx)) initialLocals)))])).
Proof.
  unfold getReasonScene_text. unfold bind at 1. unfold updateSession, modify.
  unfold bind at 1. rewrite generateReport_spec. reflexivity.
Qed.

Lemma sceneEnter_spec (id : SceneId) (ctx : Ctx) :
  sceneEnter id ctx
  = (Ok tt,
     mkCtx (set_scenes_current (Some id) (session ctx))
       (sent ctx ++ match id with
                    | getLink => [Reply ("✅ Session created! " ++ nl ++ nl ++ " Please provide the @username (e.g., @iPapkornBot) or a direct link (e.g., https://t.me/channelname) to the channel/group/bot you wish to report.")]
                    | getReason => []
                    end)).
Proof.
  destruct id; cbn; [reflexivity | ].
  rewrite app_nil_r. destruct ctx; reflexivity.
Qed.

Lemma bot_message_ok (u : Update) (ctx : Ctx) :
  fst (bot_message u ctx) = Ok tt.
Proof.
  unfold bot_message, bind, gets.
  destruct (scenes_current (session ctx)); [reflexivity | ].
  destruct (payload u); try reflexivity.
  split_ifs; reflexivity.
Qed.

Lemma botHandlers_ok (me : string) (u : Update) (ctx : Ctx) :
  fst (botHandlers me u ctx) = Ok tt.
Proof.
  unfold botHandlers.
  destruct (payload u) as [t | | d]; try apply bot_message_ok; try reflexivity.
  destruct (commandAt0 me t); [ | apply bot_message_ok].
  split_ifs; try reflexivity. apply bot_message_ok.
Qed.

Lemma handleUpdate_ok (me : string) getChat (u : Update) (ctx : Ctx) :
  fst (handleUpdate getChat me u ctx) = Ok tt.
Proof.
  unfold handleUpdate, bind, gets.
  destruct (scenes_current (session ctx)) as [[|] | ].
  - destruct (payload u) eqn:Hp; try reflexivity.
    apply botHandlers_ok.
  - destruct (payload u) eqn:Hp.
    + rewrite getReasonScene_text_spec. reflexivity.
    + reflexivity.
    + destruct (JS.includes data "reason_").
      * destruct (getReasonScene_action_spec data ctx) as [msg ->]. reflexivity.
      * apply botHandlers_ok.
  - apply botHandlers_ok.
Qed.

(** ** The chat id *)

Lemma prefix_append (p r : string) : String.prefix p (p ++ r) = true.
Proof.
  induction p as [| a p IH]; cbn.
  - destruct r; reflexivity.
  - destruct (ascii_dec a a); [exact IH | contradiction].
Qed.

Lemma includes_here (p r : string) : JS.includes (p ++ r) p = true.
Proof.
  destruct (p ++ r) eqn:E; cbn [JS.includes];
    rewrite <- E, prefix_append; reflexivity.
Qed.

Lemma includes_append_r (a b p : string) :
  JS.includes b p = true -> JS.includes (a ++ b) p = true.
Proof.
  intros H. induction a as [| x a IH]; cbn [append JS.includes].
  - exact H.
  - rewrite IH. apply orb_true_r.
Qed.

Lemma append_assoc (a b c : string) : a ++ (b ++ c) = (a ++ b) ++ c.
Proof. induction a as [| x a IH]; cbn; [reflexivity | rewrite IH; reflexivity]. Qed.

Lemma reportText_has_chatIdLine (ct ctl : string) (cid : JS.value) (link reason : string) :
  JS.includes (reportText ct ctl cid link reason) (chatIdLine cid) = true.
Proof.
  unfold reportText, chatIdLine.
  do 12 apply includes_append_r.
  rewrite (append_assoc (JS.toString cid) nl).
  rewrite (append_assoc "<b>🗨️Chat ID:</b> " (JS.toString cid ++ nl)).
  apply includes_here.
Qed.

Lemma heuristic_chat_id (reportLink : string) :
  chat_id (heuristic reportLink) = JS.VString chat_id_placeholder.
Proof.
  unfold heuristic.
  destruct (catchBlock_ok reportLink "" initialLocals) as (ct & ctl & ->).
  reflexivity.
Qed.

(** C10.  The [catch] block never assigns [chat_id].  When the lookup
    fails, [chat_id] still holds the placeholder and the report carries the
    line "Chat ID: None (Please find using @userinfobot or similar)"; when
    [chat_id] holds a number, the lookup succeeded and the number is the id
    that [getChat] returned. *)
Theorem fallback_keeps_chat_id_placeholder
    (getChat : ChatIdentifier -> Res ChatInfo) (ctx : Ctx) :
  let link := linkOf (session ctx) in
  let c := snd (classify getChat link initialLocals) in
  (forall e l, chat_id (snd (catchBlock link e l)) = chat_id l)
  /\ (lookupFails getChat link = true ->
      chat_id c = JS.VString chat_id_placeholder
      /\ exists text,
           generateReport getChat ctx
           = (Ok tt, mkCtx emptySession (sent ctx ++ [ReplyWithHTML text]))
           /\ JS.includes text (chatIdLine (JS.VString chat_id_placeholder)) = true)
  /\ (forall n, chat_id c = JS.VNumber n ->
      lookupFails getChat link = false
      /\ exists ident info,
           chatIdentifierOf link initialLocals = (Ok ident, initialLocals)
           /\ getChat ident = Ok info
           /\ n = JS.Int (ci_id info)).
Proof.
  intros link c. split.
  { intros e l. destruct (catchBlock_ok link e l) as (ct & ctl & ->). reflexivity. }
  split.
  - intros Hf.
    assert (Hc : chat_id c = JS.VString chat_id_placeholder).
    { unfold c. rewrite (classify_lookupFails _ _ Hf). apply heuristic_chat_id. }
    split; [exact Hc | ].
    eexists. split; [apply generateReport_spec | ].
    unfold synthesize. fold link. fold c. rewrite Hc.
    apply reportText_has_chatIdLine.
  - intros n Hn.
    destruct (tryBlock_cases getChat link initialLocals)
      as [[e H0] | (ident & info & ct & Hid & Hg & H0)].
    + exfalso. unfold c in Hn.
      rewrite (classify_after_throw _ _ _ _ H0) in Hn. cbn [snd] in Hn.
      rewrite heuristic_chat_id in Hn. discriminate.
    + split.
      * unfold lookupFails. rewrite H0. reflexivity.
      * exists ident, info. split; [exact Hid | split; [exact Hg | ]].
        unfold c, classify, tryCatch in Hn. rewrite H0 in Hn. cbn in Hn.
        congruence.
Qed.

Lemma fallback_keeps_chat_id_placeholder_witness :
  lookupFails (failingGetChat "Bad Request: chat not found") "https://t.me/somechannel" = true
  /\ chat_id (snd (classify (failingGetChat "Bad Request: chat not found")
                     "https://t.me/somechannel" initialLocals))
     = JS.VString chat_id_placeholder
  /\ chatType (snd (classify (failingGetChat "Bad Request: chat not found")
                      "https://t.me/somechannel" initialLocals))
     = "Bot/Channel (Link)".
Proof.
  split; [reflexivity | ].
  destruct (fallback_keeps_chat_id_placeholder
              (failingGetChat "Bad Request: chat not found")
              (mkCtx (mkSession (Some "https://t.me/somechannel") (Some "Spam") None
                        (Some getReason)) []))
    as (_ & H & _).
  split; [exact (proj1 (H eq_refl)) | reflexivity].
Defined.

(** ** The fallback, rule by rule *)





(** ** The report text *)

(** [generateReport] is [reportAndReply] and then [ctx.session = {}]. *)
Lemma generateReport_reply_then_clear
    (getChat : ChatIdentifier -> Res ChatInfo) (ctx : Ctx) :
  generateReport getChat ctx
  = (reportAndReply getChat ;; updateSession (fun _ => emptySession))%js ctx.
Proof.
  unfold generateReport, reportAndReply, bind, gets, withLocals.
  destruct (classify getChat (JS.orDefault (reportLink (session ctx)) "N/A") initialLocals)
    as [[[] | e] l]; reflexivity.
Qed.

(** Up to its reply [generateReport] leaves the session as it found it. *)
Lemma reportAndReply_spec (getChat : ChatIdentifier -> Res ChatInfo) (ctx : Ctx) :
  reportAndReply getChat ctx
  = (Ok tt,
     mkCtx (session ctx)
       (sent ctx
        ++ [ReplyWithHTML
              (synthesize (session ctx)
                 (snd (classify getChat (linkOf (session ctx)) initialLocals)))])).
Proof.
  unfold reportAndReply, bind, gets, withLocals, send, modify, synthesize.
  pose proof (classify_ok getChat (linkOf (session ctx))) as Hok.
  unfold linkOf, reasonOf in *.
  destruct (classify getChat (JS.orDefault (reportLink (session ctx)) "N/A") initialLocals)
    as [[[] | e] l]; cbn [fst] in Hok; [reflexivity | discriminate].
Qed.

(** C9.  The report is a function of the session and of the classification:
    two runs of [generateReport] on contexts with the same session and the
    same classification send the same text, whatever was sent before and
    whichever resolver produced the classification.  Building and sending
    the text (all of [generateReport] but its last statement) changes no
    field of the session, so that doing it a second time, on the context
    the first time left, sends the same text again, byte for byte; the
    session is replaced only afterwards, by the last statement. *)
Theorem synthesizer_is_deterministic
    (getChat1 getChat2 : ChatIdentifier -> Res ChatInfo) (ctx1 ctx2 : Ctx) :
  session ctx1 = session ctx2 ->
  snd (classify getChat1 (linkOf (session ctx1)) initialLocals)
  = snd (classify getChat2 (linkOf (session ctx2)) initialLocals) ->
  exists text,
    text = synthesize (session ctx1)
             (snd (classify getChat1 (linkOf (session ctx1)) initialLocals))
    /\ generateReport getChat1 ctx1
       = (Ok tt, mkCtx emptySession (sent ctx1 ++ [ReplyWithHTML text]))
    /\ generateReport getChat2 ctx2
       = (Ok tt, mkCtx emptySession (sent ctx2 ++ [ReplyWithHTML text]))
    /\ generateReport getChat1 ctx1
       = (reportAndReply getChat1 ;; updateSession (fun _ => emptySession))%js ctx1
    /\ reportAndReply getChat1 ctx1
       = (Ok tt, mkCtx (session ctx1) (sent ctx1 ++ [ReplyWithHTML text]))
    /\ (reportAndReply getChat1 ;; reportAndReply getChat2)%js ctx1
       = (Ok tt,
          mkCtx (session ctx1)
            (sent ctx1 ++ [ReplyWithHTML text; ReplyWithHTML text])).
Proof.
  intros Hs Hc. eexists. split; [reflexivity | ].
  split; [apply generateReport_spec | ].
  split; [rewrite generateReport_spec, <- Hc, <- Hs; reflexivity | ].
  split; [apply generateReport_reply_then_clear | ].
  split; [apply reportAndReply_spec | ].
  unfold bind at 1. rewrite reportAndReply_spec, reportAndReply_spec.
  cbn [session sent]. rewrite <- Hs in Hc. rewrite <- Hc.
  rewrite <- app_assoc. reflexivity.
Qed.

Lemma synthesizer_is_deterministic_witness :
  exists text,
    generateReport (failingGetChat "timeout")
      (mkCtx (mkSession (Some "@iPapkornBot") (Some "Spam") (Some "spam links") (Some getReason)) [])
    = (Ok tt, mkCtx emptySession [ReplyWithHTML text])
    /\ generateReport (failingGetChat "Bad Request: chat not found")
         (mkCtx (mkSession (Some "@iPapkornBot") (Some "Spam") (Some "spam links") (Some getReason))
            [AnswerCbQuery])
       = (Ok tt, mkCtx emptySession [AnswerCbQuery; ReplyWithHTML text])
    /\ (reportAndReply (failingGetChat "timeout") ;;
        reportAndReply (failingGetChat "Bad Request: chat not found"))%js
         (mkCtx (mkSession (Some "@iPapkornBot") (Some "Spam") (Some "spam links") (Some getReason)) [])
       = (Ok tt,
          mkCtx (mkSession (Some "@iPapkornBot") (Some "Spam") (Some "spam links") (Some getReason))
            [ReplyWithHTML text; ReplyWithHTML text]).
Proof.
  destruct (synthesizer_is_deterministic
              (failingGetChat "timeout") (failingGetChat "Bad Request: chat not found")
              (mkCtx (mkSession (Some "@iPapkornBot") (Some "Spam") (Some "spam links")
                        (Some getReason)) [])
              (mkCtx (mkSession (Some "@iPapkornBot") (Some "Spam") (Some "spam links")
                        (Some getReason)) [AnswerCbQuery])
              eq_refl eq_refl)
    as (text & _ & H1 & H2 & _ & _ & H3).
  exists text. split; [exact H1 | split; [exact H2 | exact H3]].
Defined.

(** ** The label of a category *)

Lemma drop_length_append (p r : string) : JS.drop (String.length p) (p ++ r) = r.
Proof. induction p as [| a p IH]; cbn; [destruct r; reflexivity | exact IH]. Qed.

Lemma removeFirst_prefix (p r : string) : JS.removeFirst (p ++ r) p = r.
Proof.
  destruct (p ++ r) eqn:E; cbn [JS.removeFirst];
    rewrite <- E, prefix_append; apply drop_length_append.
Qed.

Lemma capitalize_cons (c : ascii) (w : string) :
  capitalize (String c w) = String (JS.upper_ascii c) w.
Proof. reflexivity. Qed.

Lemma concat_cons_char (c : ascii) (w : string) (ws : list string) :
  String.concat " " (String c w :: ws) = String c (String.concat " " (w :: ws)).
Proof. destruct ws; reflexivity. Qed.

(** The words of the program's [split]/[map]/[join] are the words of
    [titleCase]; the first word is capitalized or not according to
    [start]. *)
Lemma words_titleCase (s : string) :
  exists w ws,
    JS.split " " (JS.underscoresToSpaces s) = w :: ws
    /\ String.concat " " (w :: map capitalize ws) = titleCase false s
    /\ String.concat " " (capitalize w :: map capitalize ws) = titleCase true s.
Proof.
  induction s as [| c r (w & ws & Hsplit & Hf & Ht)].
  - exists "", []. repeat split.
  - unfold JS.underscoresToSpaces in *. cbn [JS.map_chars JS.split titleCase].
    destruct (Ascii.eqb c "_") eqn:Eu.
    + cbn [Ascii.eqb orb]. rewrite Hsplit.
      exists "", (w :: ws). cbn [Ascii.eqb Bool.eqb].
      split; [reflexivity | ].
      split; cbn [map String.concat capitalize]; cbn; rewrite <- Ht; reflexivity.
    + cbn [orb]. destruct (Ascii.eqb c " ") eqn:Es.
      * rewrite Hsplit. exists "", (w :: ws).
        split; [reflexivity | ].
        split; cbn [map String.concat capitalize]; cbn; rewrite <- Ht; reflexivity.
      * rewrite Hsplit. exists (String c w), ws.
        split; [reflexivity | ].
        split.
        -- rewrite concat_cons_char, Hf. reflexivity.
        -- rewrite capitalize_cons, concat_cons_char, Hf. reflexivity.
Qed.

Lemma formatReason_titleCase (rest : string) :
  formatReason ("reason_" ++ rest) = titleCase true rest.
Proof.
  unfold formatReason, JS.join. rewrite removeFirst_prefix.
  destruct (words_titleCase rest) as (w & ws & -> & _ & Ht).
  exact Ht.
Qed.

(** C7.  In the scene [getReason], the button "reason_illegal_content"
    stores the reason type "Illegal Content"; and for every token
    "reason_..." other than "reason_other" the stored reason type is the
    rest of the token with its underscores turned into spaces and the first
    letter of each word capitalized. *)
Theorem category_label_is_title_case (me : string)
    (getChat : ChatIdentifier -> Res ChatInfo) (ctx : Ctx)
    (who : option string) (rest : string) :
  scenes_current (session ctx) = Some getReason ->
  rest <> "other" ->
  formatReason "reason_illegal_content" = "Illegal Content"
  /\ reasonType (session (snd (handleUpdate getChat me
                                 (mkUpdate who (Callback "reason_illegal_content")) ctx)))
     = Some "Illegal Content"
  /\ formatReason ("reason_" ++ rest) = titleCase true rest
  /\ reasonType (session (snd (handleUpdate getChat me
                                 (mkUpdate who (Callback ("reason_" ++ rest))) ctx)))
     = Some (titleCase true rest)
  /\ stateOf (snd (handleUpdate getChat me
                     (mkUpdate who (Callback ("reason_" ++ rest))) ctx))
     = AwaitingReason.
Proof.
  intros Hscene Hrest.
  assert (Hstep : forall r, r <> "other" ->
            session (snd (handleUpdate getChat me (mkUpdate who (Callback ("reason_" ++ r))) ctx))
            = set_reasonType (titleCase true r) (session ctx)).
  { intros r Hr. unfold handleUpdate, bind, gets. rewrite Hscene. cbn [payload].
    rewrite (includes_here "reason_" r).
    destruct (getReasonScene_action_spec ("reason_" ++ r) ctx) as [msg ->].
    cbn [snd session].
    replace (String.eqb ("reason_" ++ r) "reason_other") with false.
    - rewrite formatReason_titleCase. reflexivity.
    - symmetry. apply String.eqb_neq. intros E. apply Hr.
      cbn in E. congruence. }
  split; [reflexivity | ].
  split.
  { change "reason_illegal_content" with ("reason_" ++ "illegal_content").
    rewrite Hstep; [reflexivity | discriminate]. }
  split; [apply formatReason_titleCase | ].
  split.
  - rewrite (Hstep rest Hrest). reflexivity.
  - unfold stateOf. rewrite (Hstep rest Hrest). cbn. rewrite Hscene. reflexivity.
Qed.

Lemma category_label_is_title_case_witness :
  reasonType
    (session
       (snd (handleUpdate (failingGetChat "Bad Request: chat not found") "MandiusBot"
               (mkUpdate (Some "Ann") (Callback "reason_adult_content"))
               (mkCtx (mkSession (Some "@iPapkornBot") None None (Some getReason)) []))))
  = Some "Adult Content".
Proof.
  destruct (category_label_is_title_case "MandiusBot"
              (failingGetChat "Bad Request: chat not found")
              (mkCtx (mkSession (Some "@iPapkornBot") None None (Some getReason)) [])
              (Some "Ann") "adult_content" eq_refl)
    as (_ & _ & _ & H & _).
  - discriminate.
  - exact H.
Defined.

(** ** Runs of the dialogue *)

Lemma handleUpdates_cons (me : string) getChat (u : Update) (us : list Update) (ctx : Ctx) :
  handleUpdates getChat me (u :: us) ctx
  = match handleUpdate getChat me u ctx with
    | (Ok _, ctx') => handleUpdates getChat me us ctx'
    | (Thrown e, ctx') => (Thrown e, ctx')
    end.
Proof. reflexivity. Qed.

(** C4.  From the idle state, [/report], a text (the identifier), a button
    whose data matches [/reason_/] ("reason_other" or not) and a text (the
    explanation) end without a throw in the idle state, with an empty
    session: no link, no reason type, no detailed reason. *)
Theorem full_dialogue_ends_idle_and_cleared (me : string)
    (getChat : ChatIdentifier -> Res ChatInfo) (ctx : Ctx)
    (who : option string) (link data detail : string) :
  stateOf ctx = Idle ->
  JS.includes data "reason_" = true ->
  let r := handleUpdates getChat me
             [ mkUpdate who (Text "/report");
               mkUpdate who (Text link);
               mkUpdate who (Callback data);
               mkUpdate who (Text detail) ] ctx in
  fst r = Ok tt
  /\ stateOf (snd r) = Idle
  /\ session (snd r) = emptySession
  /\ reportLink (session (snd r)) = None
  /\ reasonType (session (snd r)) = None
  /\ detailedReason (session (snd r)) = None.
Proof.
  intros Hidle Hdata r.
  assert (Hnone : scenes_current (session ctx) = None).
  { unfold stateOf in Hidle.
    destruct (scenes_current (session ctx)) as [[|] | ]; [discriminate .. | reflexivity]. }
  assert (Hr : exists out, r = (Ok tt, mkCtx emptySession out)).
  { unfold r. rewrite handleUpdates_cons.
    assert (H1 : handleUpdate getChat me (mkUpdate who (Text "/report")) ctx
                 = sceneEnter getLink ctx).
    { unfold handleUpdate, bind, gets. rewrite Hnone. reflexivity. }
    rewrite H1, sceneEnter_spec.
    rewrite handleUpdates_cons.
    unfold handleUpdate at 1. unfold bind at 1. unfold gets at 1. cbn [session set_scenes_current scenes_current payload].
    rewrite getLinkScene_text_spec.
    rewrite handleUpdates_cons.
    unfold handleUpdate at 1. unfold bind at 1. unfold gets at 1. cbn [session scenes_current payload].
    rewrite Hdata.
    match goal with
    | |- context [getReasonScene_action data ?c] =>
        destruct (getReasonScene_action_spec data c) as [msg ->]
    end.
    rewrite handleUpdates_cons.
    unfold handleUpdate at 1. unfold bind at 1. unfold gets at 1.
    cbn [session set_reasonType scenes_current payload].
    rewrite getReasonScene_text_spec. eexists. reflexivity. }
  destruct Hr as [out ->]. repeat split.
Qed.

Lemma full_dialogue_ends_idle_and_cleared_witness :
  snd (handleUpdates (failingGetChat "Bad Request: chat not found") "MandiusBot"
         [ text "/report"; text "@iPapkornBot"; button "reason_other";
           text "It sends phishing links." ] emptyCtx)
  = mkCtx emptySession
      (sent (snd (handleUpdates (failingGetChat "Bad Request: chat not found") "MandiusBot"
                    [ text "/report"; text "@iPapkornBot"; button "reason_other";
                      text "It sends phishing links." ] emptyCtx))).
Proof.
  destruct (full_dialogue_ends_idle_and_cleared "MandiusBot"
              (failingGetChat "Bad Request: chat not found") emptyCtx (Some "Ann")
              "@iPapkornBot" "reason_other" "It sends phishing links."
              eq_refl eq_refl)
    as (_ & _ & H & _).
  unfold text, button. 
  destruct (snd (handleUpdates (failingGetChat "Bad Request: chat not found") "MandiusBot"
         [ mkUpdate (Some "Ann") (Text "/report");
           mkUpdate (Some "Ann") (Text "@iPapkornBot");
           mkUpdate (Some "Ann") (Callback "reason_other");
           mkUpdate (Some "Ann") (Text "It sends phishing links.") ] emptyCtx)) as [s out].
  cbn in H. rewrite H. reflexivity.
Defined.

(** ** The cancel command inside a scene *)

Lemma handleUpdate_getReason_text (me : string) getChat (ctx : Ctx) (who : option string) (t : string) :
  scenes_current (session ctx) = Some getReason ->
  handleUpdate getChat me (mkUpdate who (Text t)) ctx = getReasonScene_text getChat t ctx.
Proof. intros H. unfold handleUpdate, bind, gets. rewrite H. reflexivity. Qed.

(** C2 at the failing input.  The handler of [/cancel] is registered on
    the bot, after the stage.  In the scene [getLink] the text "/cancel" is
    taken by [getLinkScene.on('text')]: it is stored as the link, the
    keyboard of reasons is sent, the scene becomes [getReason], and no
    acknowledgement is sent.  In the scene [getReason] the text "/cancel" is
    taken as the explanation and a report is sent.  Only in the idle state
    does the handler of [/cancel] run. *)
Theorem cancel_in_a_scene_is_taken_as_input (me : string)
    (getChat : ChatIdentifier -> Res ChatInfo) :
  let awaitingLink := snd (handleUpdates getChat me [text "/report"] emptyCtx) in
  let afterCancel := snd (handleUpdate getChat me (text "/cancel") awaitingLink) in
  stateOf awaitingLink = AwaitingLink
  /\ stateOf afterCancel = AwaitingReason
  /\ reportLink (session afterCancel) = Some "/cancel"
  /\ sent afterCancel
     = (sent awaitingLink
        ++ [ReplyWithKeyboard
              "Please explain why this content is illegal under EU or EU member law:"
              keyboard])%list
  /\ (exists report,
        sent (snd (handleUpdate getChat me (text "/cancel") afterCancel))
        = (sent afterCancel ++ [ReplyWithHTML report])%list)
  /\ sent (snd (handleUpdate getChat me (text "/cancel") emptyCtx))
     = [Reply "Report generation canceled. You can start a new one anytime with /report."].
Proof.
  cbn zeta. split; [reflexivity | ].
  split; [reflexivity | ].
  split; [reflexivity | ].
  split; [reflexivity | ].
  split; [ | reflexivity].
  eexists.
  rewrite (handleUpdate_getReason_text me getChat _ (Some "Ann") "/cancel") by reflexivity.
  rewrite getReasonScene_text_spec. reflexivity.
Qed.

(** ** The explanation and the report *)

(** C3 at the failing input.  [generateReport] reads [detailedReason] and
    never uses it: the report is the same whatever the explanation, and the
    report of a completed dialogue does not contain the explanation the
    user typed. *)
Theorem report_leaves_out_the_explanation
    (getChat : ChatIdentifier -> Res ChatInfo) (s : Session) (out : list Outgoing)
    (d1 d2 : string) :
  generateReport getChat (mkCtx (set_detailedReason d1 s) out)
  = generateReport getChat (mkCtx (set_detailedReason d2 s) out)
  /\ (exists report,
        sent (snd (handleUpdates (failingGetChat "Bad Request: chat not found") "MandiusBot"
                     [ text "/report"; text "@iPapkornBot"; button "reason_spam";
                       text "It sells stolen credit cards." ] emptyCtx))
        = [ Reply ("✅ Session created! " ++ nl ++ nl ++ " Please provide the @username (e.g., @iPapkornBot) or a direct link (e.g., https://t.me/channelname) to the channel/group/bot you wish to report.");
            ReplyWithKeyboard
              "Please explain why this content is illegal under EU or EU member law:"
              keyboard;
            AnswerCbQuery;
            EditMessageText "You selected: Spam. Please provide a detailed explanation now.";
            ReplyWithHTML report ]
        /\ JS.includes report "<b>🗨️Relevant Laws:</b> Spam" = true
        /\ JS.includes report "It sells stolen credit cards." = false
        /\ JS.includes report "stolen credit cards" = false).
Proof.
  split.
  - rewrite !generateReport_spec. reflexivity.
  - eexists. split; [reflexivity | ].
    split; [ | split]; vm_compute; reflexivity.
Qed.

(** ** The dialogue, update by update *)

Lemma ctx_eta (ctx : Ctx) : mkCtx (session ctx) (sent ctx) = ctx.
Proof. destruct ctx; reflexivity. Qed.

Lemma toLowerCase_empty (t : string) : JS.toLowerCase t = "" -> t = "".
Proof. destruct t; [reflexivity | discriminate]. Qed.

(** [bot.on('message')] outside a scene: at most one reply, the session as
    it was. *)
Lemma bot_message_idle (u : Update) (ctx : Ctx) :
  scenes_current (session ctx) = None ->
  exists out,
    bot_message u ctx = (Ok tt, mkCtx (session ctx) (sent ctx ++ out))
    /\ (forall t, payload u = Text t -> t <> "" -> exists o, out = [o]).
Proof.
  intros Hs. unfold bot_message, bind, gets. rewrite Hs.
  destruct (payload u) as [t | | d].
  - destruct (String.eqb (JS.toLowerCase t) "") eqn:E.
    + exists []. rewrite app_nil_r, ctx_eta. split; [reflexivity | ].
      intros t' Ht Hne. injection Ht as <-.
      apply String.eqb_eq in E. apply toLowerCase_empty in E. contradiction.
    + destruct (existsb (String.eqb (JS.toLowerCase t)) greetings);
        eexists; (split; [reflexivity | intros; eexists; reflexivity]).
  - exists []. rewrite app_nil_r, ctx_eta. split; [reflexivity | discriminate].
  - exists []. rewrite app_nil_r, ctx_eta. split; [reflexivity | discriminate].
Qed.

Lemma handleUpdate_idle (me : string) getChat (u : Update) (ctx : Ctx) :
  scenes_current (session ctx) = None ->
  handleUpdate getChat me u ctx = botHandlers me u ctx.
Proof. intros H. unfold handleUpdate, bind, gets. rewrite H. reflexivity. Qed.

(** The handlers of the bot outside a scene: the session and the replies,
    by the command of the update. *)
Lemma botHandlers_idle (me : string) (u : Update) (ctx : Ctx) :
  scenes_current (session ctx) = None ->
  exists out,
    botHandlers me u ctx
    = (Ok tt,
       mkCtx (match payload u with
              | Text t =>
                  if isCommand me t "report"
                  then set_scenes_current (Some getLink) (session ctx)
                  else if isCommand me t "cancel" then emptySession
                  else session ctx
              | _ => session ctx
              end)
         (sent ctx ++ out))
    /\ (forall t, payload u = Text t -> t <> "" -> exists o, out = [o]).
Proof.
  intros Hs. unfold botHandlers, isCommand.
  destruct (payload u) as [t | | d] eqn:Hp.
  - destruct (commandAt0 me t) as [c | ] eqn:Hc.
    + destruct (String.eqb c "start") eqn:E1.
      { apply String.eqb_eq in E1. subst c. cbn.
        eexists. split; [reflexivity | intros; eexists; reflexivity]. }
      destruct (String.eqb c "help") eqn:E2.
      { apply String.eqb_eq in E2. subst c. cbn.
        eexists. split; [reflexivity | intros; eexists; reflexivity]. }
      destruct (String.eqb c "report") eqn:E3.
      { unfold bot_report. rewrite sceneEnter_spec.
        eexists. split; [reflexivity | intros; eexists; reflexivity]. }
      destruct (String.eqb c "cancel") eqn:E4.
      { eexists. split; [reflexivity | intros; eexists; reflexivity]. }
      destruct (bot_message_idle u ctx Hs) as (out & -> & Hout).
      exists out. split; [reflexivity | ].
      intros t' Ht. apply Hout. rewrite Hp. exact Ht.
    + destruct (bot_message_idle u ctx Hs) as (out & -> & Hout).
      exists out. split; [reflexivity | ].
      intros t' Ht. apply Hout. rewrite Hp. exact Ht.
  - destruct (bot_message_idle u ctx Hs) as (out & -> & Hout).
    exists out. split; [reflexivity | discriminate].
  - exists []. rewrite app_nil_r, ctx_eta. split; [reflexivity | discriminate].
Qed.


Lemma handleUpdate_wellFormed (me : string) getChat (u : Update) (ctx : Ctx) :
  wellFormed ctx = true -> wellFormed (snd (handleUpdate getChat me u ctx)) = true.
Proof.
  unfold wellFormed at 1. intros Hw.
  destruct (scenes_current (session ctx)) as [[|] | ] eqn:Hs.
  - apply andb_true_iff in Hw. destruct Hw as [Hw Hd].
    unfold handleUpdate, bind, gets. rewrite Hs.
    destruct (payload u) as [t | | d] eqn:Hp.
    + rewrite getLinkScene_text_spec. unfold wellFormed. cbn. exact Hd.
    + unfold wellFormed. cbn. rewrite Hs, Hw, Hd. reflexivity.
    + unfold botHandlers. rewrite Hp. unfold wellFormed. cbn. rewrite Hs, Hw, Hd. reflexivity.
  - unfold handleUpdate, bind, gets. rewrite Hs.
    destruct (payload u) as [t | | d] eqn:Hp.
    + rewrite getReasonScene_text_spec. reflexivity.
    + unfold wellFormed. cbn. rewrite Hs. exact Hw.
    + destruct (JS.includes d "reason_").
      * destruct (getReasonScene_action_spec d ctx) as [msg ->].
        unfold wellFormed. cbn. rewrite Hs. exact Hw.
      * unfold botHandlers. rewrite Hp. unfold wellFormed. cbn. rewrite Hs. exact Hw.
  - rewrite (handleUpdate_idle me _ _ _ Hs).
    destruct (botHandlers_idle me u ctx Hs) as (out & -> & _).
    unfold wellFormed. cbn [snd session].
    destruct (payload u) as [t | | d]; try (rewrite Hs; exact Hw).
    destruct (isCommand me t "report"); [cbn; exact Hw | ].
    destruct (isCommand me t "cancel"); [reflexivity | rewrite Hs; exact Hw].
Qed.

(** X2.  Whatever updates arrive, in whatever order, no handler throws, and
    between two updates the session holds nothing outside the scene
    [getReason] and, inside it, a link and no explanation: the explanation
    is stored and dropped within one update. *)
Theorem reachable_sessions_are_wellFormed (me : string)
    (getChat : ChatIdentifier -> Res ChatInfo) (us : list Update) (ctx : Ctx) :
  wellFormed ctx = true ->
  fst (handleUpdates getChat me us ctx) = Ok tt
  /\ wellFormed (snd (handleUpdates getChat me us ctx)) = true.
Proof.
  revert ctx. induction us as [| u us IH]; intros ctx Hw.
  - split; [reflexivity | exact Hw].
  - rewrite handleUpdates_cons.
    pose proof (handleUpdate_ok me getChat u ctx) as Hok.
    pose proof (handleUpdate_wellFormed me getChat u ctx Hw) as Hw'.
    destruct (handleUpdate getChat me u ctx) as [[[] | e] ctx']; cbn in Hok, Hw';
      [apply IH; exact Hw' | discriminate].
Qed.

Lemma reachable_sessions_are_wellFormed_witness :
  wellFormed emptyCtx = true
  /\ wellFormed
       (snd (handleUpdates (failingGetChat "Bad Request: chat not found") "MandiusBot"
               [ text "hello"; text "/report"; button "reason_spam";
                 text "https://t.me/somechannel"; button "reason_phishing" ]
               emptyCtx))
     = true.
Proof.
  split; [reflexivity | ].
  apply (reachable_sessions_are_wellFormed "MandiusBot"
           (failingGetChat "Bad Request: chat not found")
           [ text "hello"; text "/report"; button "reason_spam";
             text "https://t.me/somechannel"; button "reason_phishing" ]
           emptyCtx eq_refl).
Defined.

(** X3.  A text that is not empty gets exactly one reply, in every state:
    one of the scene when a scene is active, one of the bot otherwise; what
    was sent before stays. *)
Theorem text_gets_exactly_one_reply (me : string)
    (getChat : ChatIdentifier -> Res ChatInfo) (who : option string) (t : string)
    (ctx : Ctx) :
  t <> "" ->
  exists o,
    sent (snd (handleUpdate getChat me (mkUpdate who (Text t)) ctx))
    = (sent ctx ++ [o])%list.
Proof.
  intros Hne.
  destruct (scenes_current (session ctx)) as [[|] | ] eqn:Hs.
  - unfold handleUpdate, bind, gets. rewrite Hs. cbn [payload].
    rewrite getLinkScene_text_spec. eexists. reflexivity.
  - rewrite (handleUpdate_getReason_text me _ _ _ _ Hs), getReasonScene_text_spec.
    eexists. reflexivity.
  - rewrite (handleUpdate_idle me _ _ _ Hs).
    destruct (botHandlers_idle me (mkUpdate who (Text t)) ctx Hs) as (out & -> & Hout).
    destruct (Hout t eq_refl Hne) as [o ->]. exists o. reflexivity.
Qed.

Lemma text_gets_exactly_one_reply_witness :
  sent (snd (handleUpdate (failingGetChat "Bad Request: chat not found") "MandiusBot"
               (mkUpdate None (Text "what is this?")) emptyCtx))
  = [Reply "I didn't understand that. Please use /start, /help, or /report."].
Proof.
  destruct (text_gets_exactly_one_reply "MandiusBot"
              (failingGetChat "Bad Request: chat not found") None "what is this?"
              emptyCtx) as [o Ho]; [discriminate | ].
  rewrite Ho. cbn in Ho. injection Ho as <-. reflexivity.
Defined.

(** X4.  A message without text never changes the session or the state.
    Inside a scene it gets the re-prompt of the scene; outside a scene it
    gets no reply at all. *)
Theorem non_text_message_is_rejected (me : string)
    (getChat : ChatIdentifier -> Res ChatInfo) (who : option string) (ctx : Ctx) :
  handleUpdate getChat me (mkUpdate who NonText) ctx
  = (Ok tt,
     mkCtx (session ctx)
       (sent ctx ++ reprompt (scenes_current (session ctx)))).
Proof.
  unfold handleUpdate, bind, gets.
  destruct (scenes_current (session ctx)) as [[|] | ] eqn:Hs; cbn [payload reprompt].
  - reflexivity.
  - reflexivity.
  - unfold botHandlers, bot_message, bind, gets. cbn [payload]. rewrite Hs.
    rewrite app_nil_r, ctx_eta. reflexivity.
Qed.

(** X5.  A button is taken only in the scene [getReason] and only when its
    data contains "reason_".  Pressed in any other state, a button of an
    old keyboard among them, it changes nothing and nothing is sent, not
    even the answer to the callback query. *)
Theorem button_outside_getReason_does_nothing (me : string)
    (getChat : ChatIdentifier -> Res ChatInfo) (who : option string) (data : string)
    (ctx : Ctx) :
  scenes_current (session ctx) <> Some getReason \/ JS.includes data "reason_" = false ->
  handleUpdate getChat me (mkUpdate who (Callback data)) ctx = (Ok tt, ctx).
Proof.
  intros H. unfold handleUpdate, bind, gets.
  destruct (scenes_current (session ctx)) as [[|] | ] eqn:Hs; cbn [payload].
  - reflexivity.
  - destruct H as [H | H]; [contradiction H; reflexivity | ].
    rewrite H. reflexivity.
  - reflexivity.
Qed.

Lemma button_outside_getReason_does_nothing_witness :
  handleUpdate (failingGetChat "Bad Request: chat not found") "MandiusBot"
    (mkUpdate (Some "Ann") (Callback "reason_spam")) emptyCtx
  = (Ok tt, emptyCtx).
Proof.
  apply (button_outside_getReason_does_nothing "MandiusBot"
           (failingGetChat "Bad Request: chat not found") (Some "Ann") "reason_spam"
           emptyCtx).
  left. discriminate.
Defined.

Lemma greeting_is_no_command (me : string) (t : string) :
  existsb (String.eqb (JS.toLowerCase t)) greetings = true ->
  commandAt0 me t = None /\ JS.toLowerCase t <> "".
Proof.
  intros H. destruct t as [| c r]; [discriminate H | ].
  split; [ | discriminate].
  destruct (ascii_dec c "/") as [-> | Hne].
  - cbn in H. discriminate H.
  - destruct c as [[] [] [] [] [] [] [] []]; try reflexivity.
    exfalso. apply Hne. reflexivity.
Qed.

(** X6.  Outside a scene a greeting, in any mix of upper and lower case,
    gets the very reply of /start, and the session stays as it was. *)
Theorem greeting_gets_the_start_reply (me : string)
    (getChat : ChatIdentifier -> Res ChatInfo) (who : option string) (t : string)
    (ctx : Ctx) :
  scenes_current (session ctx) = None ->
  existsb (String.eqb (JS.toLowerCase t)) greetings = true ->
  handleUpdate getChat me (mkUpdate who (Text t)) ctx
  = handleUpdate getChat me (mkUpdate who (Text "/start")) ctx
  /\ handleUpdate getChat me (mkUpdate who (Text t)) ctx
     = (Ok tt,
        mkCtx (session ctx)
          (sent ctx ++ [ReplyWithHTML (welcomeMessage (mkUpdate who (Text t)))])).
Proof.
  intros Hs Hg. destruct (greeting_is_no_command me t Hg) as [Hc Hne].
  rewrite !(handleUpdate_idle me _ _ _ Hs).
  assert (H : botHandlers me (mkUpdate who (Text t)) ctx
              = (Ok tt,
                 mkCtx (session ctx)
                   (sent ctx ++ [ReplyWithHTML (welcomeMessage (mkUpdate who (Text t)))]))).
  { unfold botHandlers. cbn [payload]. rewrite Hc.
    unfold bot_message, bind, gets. rewrite Hs. cbn [payload].
    apply String.eqb_neq in Hne. rewrite Hne, Hg. reflexivity. }
  split; [rewrite H; reflexivity | exact H].
Qed.

Lemma greeting_gets_the_start_reply_witness :
  handleUpdate (failingGetChat "Bad Request: chat not found") "MandiusBot"
    (mkUpdate None (Text "HeLLo")) emptyCtx
  = handleUpdate (failingGetChat "Bad Request: chat not found") "MandiusBot"
      (mkUpdate None (Text "/start")) emptyCtx.
Proof.
  apply (greeting_gets_the_start_reply "MandiusBot"
           (failingGetChat "Bad Request: chat not found") None "HeLLo" emptyCtx
           eq_refl eq_refl).
Defined.

Lemma handleUpdate_getReason_button (me : string) getChat (ctx : Ctx) (who : option string)
    (data : string) :
  scenes_current (session ctx) = Some getReason ->
  JS.includes data "reason_" = true ->
  handleUpdate getChat me (mkUpdate who (Callback data)) ctx
  = getReasonScene_action data ctx.
Proof.
  intros Hs Hd. unfold handleUpdate, bind, gets. rewrite Hs. cbn [payload].
  rewrite Hd. reflexivity.
Qed.

(** X7.  In the scene [getReason] the last button pressed decides: after
    two buttons the session is the one the second alone would leave, and a
    button never touches the link or the state. *)
Theorem last_button_wins (me : string)
    (getChat : ChatIdentifier -> Res ChatInfo) (who : option string)
    (data1 data2 : string) (ctx : Ctx) :
  scenes_current (session ctx) = Some getReason ->
  JS.includes data1 "reason_" = true ->
  JS.includes data2 "reason_" = true ->
  let after1 := snd (handleUpdate getChat me (mkUpdate who (Callback data1)) ctx) in
  session (snd (handleUpdate getChat me (mkUpdate who (Callback data2)) after1))
  = session (snd (handleUpdate getChat me (mkUpdate who (Callback data2)) ctx))
  /\ reportLink (session after1) = reportLink (session ctx)
  /\ scenes_current (session after1) = Some getReason.
Proof.
  intros Hs H1 H2 after1. unfold after1.
  rewrite (handleUpdate_getReason_button me _ ctx who data1 Hs H1).
  destruct (getReasonScene_action_spec data1 ctx) as [m1 ->]. cbn [snd].
  rewrite (handleUpdate_getReason_button me _ _ who data2); [ | exact Hs | exact H2].
  rewrite (handleUpdate_getReason_button me _ ctx who data2 Hs H2).
  match goal with
  | |- context [getReasonScene_action data2 ?c] =>
      destruct (getReasonScene_action_spec data2 c) as [m2 ->]
  end.
  destruct (getReasonScene_action_spec data2 ctx) as [m3 ->].
  cbn. split; [reflexivity | split; [reflexivity | exact Hs]].
Qed.

Lemma last_button_wins_witness :
  session
    (snd (handleUpdate (failingGetChat "Bad Request: chat not found") "MandiusBot"
            (mkUpdate (Some "Ann") (Callback "reason_phishing"))
            (snd (handleUpdate (failingGetChat "Bad Request: chat not found") "MandiusBot"
                    (mkUpdate (Some "Ann") (Callback "reason_spam"))
                    (mkCtx (mkSession (Some "@iPapkornBot") None None (Some getReason)) [])))))
  = mkSession (Some "@iPapkornBot") (Some "Phishing") None (Some getReason).
Proof.
  destruct (last_button_wins "MandiusBot"
              (failingGetChat "Bad Request: chat not found") (Some "Ann")
              "reason_spam" "reason_phishing"
              (mkCtx (mkSession (Some "@iPapkornBot") None None (Some getReason)) [])
              eq_refl eq_refl eq_refl) as [H _].
  rewrite H. reflexivity.
Defined.

Lemma getReasonScene_action_other (ctx : Ctx) :
  getReasonScene_action "reason_other" ctx
  = (Ok tt,
     mkCtx (set_reasonType "User Provided" (session ctx))
       (sent ctx
        ++ [ AnswerCbQuery;
             EditMessageText "Please type your detailed reason for the report:" ])).
Proof.
  unfold getReasonScene_action, bind, send, updateSession, modify. cbn.
  rewrite <- app_assoc. reflexivity.
Qed.

(** X8.  Choosing "Other" gives the report that choosing nothing gives: in
    the scene [getReason] with no reason chosen yet, the explanation typed
    after the button "reason_other" and the explanation typed at once end
    with the same report and the same empty session. *)
Theorem other_equals_no_selection (me : string)
    (getChat : ChatIdentifier -> Res ChatInfo) (who : option string) (detail : string)
    (ctx : Ctx) :
  scenes_current (session ctx) = Some getReason ->
  reasonType (session ctx) = None ->
  exists report,
    handleUpdates getChat me
      [mkUpdate who (Callback "reason_other"); mkUpdate who (Text detail)] ctx
    = (Ok tt,
       mkCtx emptySession
         (sent ctx
          ++ [ AnswerCbQuery;
               EditMessageText "Please type your detailed reason for the report:";
               ReplyWithHTML report ]))
    /\ handleUpdates getChat me [mkUpdate who (Text detail)] ctx
       = (Ok tt, mkCtx emptySession (sent ctx ++ [ReplyWithHTML report])).
Proof.
  intros Hs Hr. eexists. split.
  - rewrite handleUpdates_cons.
    rewrite (handleUpdate_getReason_button me _ ctx who "reason_other" Hs eq_refl).
    rewrite getReasonScene_action_other.
    rewrite handleUpdates_cons.
    rewrite handleUpdate_getReason_text by exact Hs.
    rewrite getReasonScene_text_spec. cbn [sent session handleUpdates ret].
    rewrite <- !app_assoc. cbn [app].
    unfold synthesize, linkOf, reasonOf. cbn. reflexivity.
  - rewrite handleUpdates_cons.
    rewrite (handleUpdate_getReason_text me _ ctx who detail Hs).
    rewrite getReasonScene_text_spec. cbn [handleUpdates ret].
    unfold synthesize, linkOf, reasonOf. cbn. rewrite Hr. reflexivity.
Qed.

Lemma other_equals_no_selection_witness :
  exists report,
    sent (snd (handleUpdates (failingGetChat "Bad Request: chat not found") "MandiusBot"
                 [button "reason_other"; text "It sends phishing links."]
                 (mkCtx (mkSession (Some "@iPapkornBot") None None (Some getReason)) [])))
    = [ AnswerCbQuery;
        EditMessageText "Please type your detailed reason for the report:";
        ReplyWithHTML report ]
    /\ sent (snd (handleUpdates (failingGetChat "Bad Request: chat not found") "MandiusBot"
                    [text "It sends phishing links."]
                    (mkCtx (mkSession (Some "@iPapkornBot") None None (Some getReason)) [])))
       = [ReplyWithHTML report].
Proof.
  destruct (other_equals_no_selection "MandiusBot"
              (failingGetChat "Bad Request: chat not found") (Some "Ann")
              "It sends phishing links."
              (mkCtx (mkSession (Some "@iPapkornBot") None None (Some getReason)) [])
              eq_refl eq_refl) as (report & H1 & H2).
  exists report. unfold button, text. rewrite H1, H2. split; reflexivity.
Defined.

(** ** The identifier looked up *)

Lemma startsWith_at_cons (x : string) : JS.startsWith ("@" ++ x) "@" = true.
Proof. destruct x; reflexivity. Qed.

(** X9.  [getChat] is only ever asked about a string that starts with "@"
    or about a number: a t.me link is turned into "@" and its last segment,
    and a string that is not a link is passed on only if it starts with "@"
    or converts to a number, in which case the number parsed from it is
    passed. *)
Theorem lookup_identifier_shape (reportLink : string) (l l' : Locals)
    (ident : ChatIdentifier) :
  chatIdentifierOf reportLink l = (Ok ident, l') ->
  match ident with
  | CIString s =>
      JS.startsWith s "@" = true
      /\ (JS.startsWith reportLink "https://t.me/" = false -> s = reportLink)
  | CINumber n =>
      n = JS.parseInt reportLink
      /\ JS.isNaN reportLink = false
      /\ JS.startsWith reportLink "@" = false
  end.
Proof.
  unfold chatIdentifierOf.
  destruct (JS.startsWith reportLink "https://t.me/") eqn:Hh.
  - destruct (JS.startsWith (JS.lastOf (JS.split "/" reportLink)) "+");
      [discriminate | ].
    intros H. injection H as <- _. split; [ | discriminate].
    destruct (JS.startsWith (JS.lastOf (JS.split "/" reportLink)) "@") eqn:E;
      [exact E | apply startsWith_at_cons].
  - destruct (JS.startsWith reportLink "@") eqn:Ha; cbn [negb andb].
    + intros H. injection H as <- _. split; [exact Ha | reflexivity].
    + destruct (JS.isNaN reportLink) eqn:Hn; cbn [negb]; [discriminate | ].
      intros H. injection H as <- _. repeat split.
Qed.

Lemma lookup_identifier_shape_witness :
  chatIdentifierOf "https://t.me/somechannel" initialLocals
  = (Ok (CIString "@somechannel"), initialLocals)
  /\ JS.startsWith "@somechannel" "@" = true.
Proof.
  split; [reflexivity | ].
  exact (proj1 (lookup_identifier_shape "https://t.me/somechannel" initialLocals
                  initialLocals (CIString "@somechannel") eq_refl)).
Defined.

(** X10.  An invite link (a t.me link whose last segment starts with "+")
    and a string that is neither a link, an @username nor a number are never
    looked up: the [try] block throws before [getChat], so the
    classification is the fallback whatever [getChat] would answer. *)
Theorem invite_and_malformed_links_skip_the_lookup
    (getChat : ChatIdentifier -> Res ChatInfo) (reportLink : string) :
  (JS.startsWith reportLink "https://t.me/" = true
   /\ JS.startsWith (JS.lastOf (JS.split "/" reportLink)) "+" = true)
  \/ (JS.startsWith reportLink "https://t.me/" = false
      /\ JS.startsWith reportLink "@" = false
      /\ JS.isNaN reportLink = true) ->
  lookupFails getChat reportLink = true
  /\ classify getChat reportLink initialLocals = (Ok tt, heuristic reportLink).
Proof.
  intros H.
  assert (Hf : lookupFails getChat reportLink = true).
  { unfold lookupFails, tryBlock. unfold bind at 1. unfold chatIdentifierOf.
    destruct H as [[H1 H2] | (H1 & H2 & H3)].
    - rewrite H1, H2. reflexivity.
    - rewrite H1, H2, H3. reflexivity. }
  split; [exact Hf | apply classify_lookupFails; exact Hf].
Qed.

Lemma invite_and_malformed_links_skip_the_lookup_witness :
  classify (fun _ => Ok (mkChatInfo 7 (Some "Private club") "supergroup" None false))
    "https://t.me/+AbCdEf" initialLocals
  = (Ok tt, heuristic "https://t.me/+AbCdEf").
Proof.
  apply (invite_and_malformed_links_skip_the_lookup
           (fun _ => Ok (mkChatInfo 7 (Some "Private club") "supergroup" None false))
           "https://t.me/+AbCdEf").
  left. split; reflexivity.
Defined.

(** ** The fallback on a t.me link *)

Lemma split_nonempty (sep : ascii) (s : string) : JS.split sep s <> [].
Proof.
  destruct s as [| c r]; cbn; [discriminate | ].
  destruct (Ascii.eqb c sep); [discriminate | ].
  destruct (JS.split sep r); discriminate.
Qed.

Lemma split_no_separator (sep : ascii) (s : string) :
  hasChar sep s = false -> JS.split sep s = [s].
Proof.
  induction s as [| c r IH]; cbn; [reflexivity | ].
  intros H. apply orb_false_iff in H. destruct H as [Hc Hr].
  rewrite Hc, (IH Hr). reflexivity.
Qed.

(** The last piece of a string is the last piece of what follows any of its
    separators. *)
Lemma lastOf_split_after_separator (sep : ascii) (p r : string) :
  JS.lastOf (JS.split sep (p ++ String sep r)) = JS.lastOf (JS.split sep r).
Proof.
  assert (H : exists w ws,
             JS.split sep (p ++ String sep r) = w :: ws
             /\ ws <> [] /\ List.last ws "" = JS.lastOf (JS.split sep r)).
  { induction p as [| a p (w & ws & E & Hne & Hl)].
    - cbn [append JS.split]. rewrite Ascii.eqb_refl.
      exists "", (JS.split sep r).
      split; [reflexivity | split; [apply split_nonempty | reflexivity]].
    - cbn [append JS.split]. rewrite E. destruct (Ascii.eqb a sep).
      + exists "", (w :: ws). split; [reflexivity | split; [discriminate | ]].
        rewrite <- Hl. destruct ws; [contradiction | reflexivity].
      + exists (String a w), ws. split; [reflexivity | split; assumption]. }
  destruct H as (w & ws & -> & Hne & <-).
  unfold JS.lastOf. destruct ws; [contradiction | reflexivity].
Qed.

Lemma prefix_hasChar (c : ascii) (p s : string) :
  String.prefix p s = true -> hasChar c p = true -> hasChar c s = true.
Proof.
  revert s. induction p as [| a p IH]; intros s Hp Hc; [discriminate Hc | ].
  destruct s as [| b s]; [discriminate Hp | ].
  cbn in Hp. destruct (ascii_dec a b) as [-> | _]; [ | discriminate Hp].
  cbn in Hc |- *. destruct (Ascii.eqb b c); [reflexivity | ].
  cbn in Hc |- *. exact (IH s Hp Hc).
Qed.

Lemma includes_hasChar (c : ascii) (s p : string) :
  hasChar c p = true -> hasChar c s = false -> JS.includes s p = false.
Proof.
  intros Hp. induction s as [| a s IH]; intros Hs.
  - cbn. destruct p; [discriminate Hp | reflexivity].
  - cbn [JS.includes].
    destruct (String.prefix p (String a s)) eqn:E.
    + rewrite (prefix_hasChar c _ _ E Hp) in Hs. discriminate.
    + cbn in Hs. apply orb_false_iff in Hs. destruct Hs as [_ Hs].
      cbn. exact (IH Hs).
Qed.

Lemma tme_link_facts (name : string) :
  hasChar "/" name = false ->
  String.prefix "joinchat" name = false ->
  JS.startsWith ("https://t.me/" ++ name) "https://t.me/" = true
  /\ JS.lastOf (JS.split "/" ("https://t.me/" ++ name)) = name
  /\ JS.includes ("https://t.me/" ++ name) "t.me/joinchat" = false
  /\ JS.includes ("https://t.me/" ++ name) "t.me/" = true.
Proof.
  intros Hslash Hjoin. split; [apply prefix_append | ].
  split.
  { change ("https://t.me/" ++ name) with ("https://t.me" ++ String "/" name).
    rewrite lastOf_split_after_separator, (split_no_separator _ _ Hslash).
    reflexivity. }
  split.
  { pose proof (includes_hasChar "/" name "t.me/joinchat" eq_refl Hslash) as Hn.
    cbn [append JS.includes String.prefix]. cbn.
    rewrite Hjoin, Hn. reflexivity. }
  change ("https://t.me/" ++ name) with ("https://" ++ ("t.me/" ++ name)).
  apply includes_append_r, includes_here.
Qed.

(** The fallback on a t.me link with a plain last segment. *)
Lemma heuristic_tme_link (name : string) :
  name <> "" ->
  hasChar "/" name = false ->
  String.prefix "joinchat" name = false ->
  heuristic ("https://t.me/" ++ name)
  = (if JS.startsWith name "@"
     then mkLocals "Bot/Channel (Username)" (JS.substring1 name)
            (JS.VString chat_id_placeholder)
     else mkLocals "Bot/Channel (Link)" name (JS.VString chat_id_placeholder)).
Proof.
  intros Hne Hslash Hjoin.
  destruct (tme_link_facts name Hslash Hjoin) as (Hs & Hlast & Hj & Ht).
  unfold heuristic, catchBlock. rewrite Hj, Ht, Hs, Hlast.
  destruct (JS.startsWith name "@"); [reflexivity | ].
  apply String.eqb_neq in Hne. rewrite Hne. reflexivity.
Qed.

(** X11.  A link "https://t.me/" and a name with no "/" (and not beginning
    "joinchat"), when the lookup fails: the chat title is the name, under
    "Bot/Channel (Link)", or the name without its "@", under "Bot/Channel
    (Username)", and the chat id stays the placeholder.  When the name does
    not start with "+", the lookup was tried with "@" and that same name. *)
Theorem tme_link_fallback_title
    (getChat : ChatIdentifier -> Res ChatInfo) (name : string) :
  name <> "" ->
  hasChar "/" name = false ->
  String.prefix "joinchat" name = false ->
  lookupFails getChat ("https://t.me/" ++ name) = true ->
  classify getChat ("https://t.me/" ++ name) initialLocals
  = (Ok tt,
     if JS.startsWith name "@"
     then mkLocals "Bot/Channel (Username)" (JS.substring1 name)
            (JS.VString chat_id_placeholder)
     else mkLocals "Bot/Channel (Link)" name (JS.VString chat_id_placeholder))
  /\ (JS.startsWith name "+" = false ->
      chatIdentifierOf ("https://t.me/" ++ name) initialLocals
      = (Ok (CIString (if JS.startsWith name "@" then name else "@" ++ name)),
         initialLocals)).
Proof.
  intros Hne Hslash Hjoin Hf. split.
  - rewrite (classify_lookupFails _ _ Hf).
    rewrite (heuristic_tme_link name Hne Hslash Hjoin). reflexivity.
  - intros Hplus.
    destruct (tme_link_facts name Hslash Hjoin) as (Hs & Hlast & _ & _).
    unfold chatIdentifierOf. rewrite Hs, Hlast, Hplus. reflexivity.
Qed.

Lemma tme_link_fallback_title_witness :
  classify (failingGetChat "Bad Request: chat not found")
    "https://t.me/somechannel" initialLocals
  = (Ok tt, mkLocals "Bot/Channel (Link)" "somechannel" (JS.VString chat_id_placeholder)).
Proof.
  apply (tme_link_fallback_title
           (failingGetChat "Bad Request: chat not found") "somechannel");
    [discriminate | reflexivity | reflexivity | reflexivity].
Defined.

(** ** What a report can show *)

Lemma catchBlock_chatType (reportLink error : string) (l : Locals) :
  In (chatType l) chatTypes ->
  In (chatType (snd (catchBlock reportLink error l))) chatTypes.
Proof.
  intros H. unfold catchBlock, bind, set_chatType, set_chatTitle, modify, ret.
  split_ifs; cbn; tauto.
Qed.

(** X12.  Whatever the link and whatever [getChat] answers or throws, the
    chat type of the report is one of seven: "Unknown", "Channel", "Group",
    "Private Chat (User)", "Bot", "Bot/Channel (Username)" or "Bot/Channel
    (Link)"; the type string of the answer itself is never shown. *)
Theorem chatType_is_one_of_seven
    (getChat : ChatIdentifier -> Res ChatInfo) (reportLink : string) :
  In (chatType (snd (classify getChat reportLink initialLocals))) chatTypes.
Proof.
  destruct (tryBlock_cases getChat reportLink initialLocals)
    as [[e H0] | (ident & info & ct & Hid & Hg & H0)].
  - unfold classify, tryCatch. rewrite H0.
    apply catchBlock_chatType. cbn. tauto.
  - unfold classify, tryCatch. rewrite H0. cbn [snd chatType].
    unfold tryBlock in H0. unfold bind at 1 in H0. rewrite Hid in H0.
    unfold bind at 1, await in H0. rewrite Hg in H0.
    unfold bind, set_chat_id, set_chatTitle, set_chatType, modify, ret in H0.
    cbn in H0.
    destruct (String.eqb (ci_type info) "channel");
      [injection H0 as <-; cbn; tauto | ].
    destruct (String.eqb (ci_type info) "group" || String.eqb (ci_type info) "supergroup");
      [injection H0 as <-; cbn; tauto | ].
    destruct (String.eqb (ci_type info) "private");
      [injection H0 as <-; cbn; tauto | ].
    destruct (truthy (ci_username info) && ci_is_bot info);
      injection H0 as <-; cbn; tauto.
Qed.

Lemma reportText_has_chatLinkLine (ct ctl : string) (cid : JS.value) (link reason : string) :
  JS.includes (reportText ct ctl cid link reason) (chatLinkLine link) = true.
Proof.
  unfold reportText, chatLinkLine.
  do 15 apply includes_append_r.
  rewrite (append_assoc "</code>" nl).
  rewrite (append_assoc link ("</code>" ++ nl)).
  rewrite (append_assoc "<b>🗨️Chat Link:</b> <code>" (link ++ "</code>" ++ nl)).
  apply includes_here.
Qed.

Lemma reportText_has_relevantLawsLine (ct ctl : string) (cid : JS.value)
    (link reason : string) :
  JS.includes (reportText ct ctl cid link reason) (relevantLawsLine reason) = true.
Proof.
  unfold reportText, relevantLawsLine.
  do 19 apply includes_append_r.
  rewrite (append_assoc reason nl).
  rewrite (append_assoc "<b>🗨️Relevant Laws:</b> " (reason ++ nl)).
  apply includes_here.
Qed.

(** X13.  The report of every session carries the link byte for byte
    between "<code>" and "</code>", with no escaping of what the user typed,
    and the reason type on its own line; "N/A" and "User Provided" stand for
    a missing or empty one. *)
Theorem report_carries_link_and_reason_verbatim
    (getChat : ChatIdentifier -> Res ChatInfo) (ctx : Ctx) :
  exists report,
    generateReport getChat ctx
    = (Ok tt, mkCtx emptySession (sent ctx ++ [ReplyWithHTML report]))
    /\ JS.includes report (chatLinkLine (linkOf (session ctx))) = true
    /\ JS.includes report (relevantLawsLine (reasonOf (session ctx))) = true
    /\ (forall link, link <> "" -> reportLink (session ctx) = Some link ->
        linkOf (session ctx) = link)
    /\ (forall reason, reason <> "" -> reasonType (session ctx) = Some reason ->
        reasonOf (session ctx) = reason).
Proof.
  eexists. split; [apply generateReport_spec | ].
  unfold synthesize.
  split; [apply reportText_has_chatLinkLine | ].
  split; [apply reportText_has_relevantLawsLine | ].
  split.
  - intros link Hne E. unfold linkOf. rewrite E.
    destruct link; [contradiction | reflexivity].
  - intros reason Hne E. unfold reasonOf. rewrite E.
    destruct reason; [contradiction | reflexivity].
Qed.

(** X14.  A session with no link, or with an empty one (a link message of
    white space only is stored empty), gives the report for "N/A": unknown
    type, no title, the placeholder id, and [getChat] is not consulted. *)
Theorem missing_link_reports_not_available
    (getChat : ChatIdentifier -> Res ChatInfo) (ctx : Ctx) :
  reportLink (session ctx) = None \/ reportLink (session ctx) = Some "" ->
  generateReport getChat ctx
  = (Ok tt,
     mkCtx emptySession
       (sent ctx
        ++ [ReplyWithHTML
              (reportText "Unknown" "None" (JS.VString chat_id_placeholder) "N/A"
                 (reasonOf (session ctx)))])).
Proof.
  intros H. rewrite generateReport_spec. unfold synthesize.
  assert (Hl : linkOf (session ctx) = "N/A").
  { unfold linkOf. destruct H as [-> | ->]; reflexivity. }
  rewrite Hl.
  assert (Hc : classify getChat "N/A" initialLocals = (Ok tt, initialLocals)).
  { reflexivity. }
  rewrite Hc. reflexivity.
Qed.

Lemma missing_link_reports_not_available_witness :
  exists out,
    handleUpdates (fun _ => Ok (mkChatInfo 7 (Some "Any") "channel" None false))
      "MandiusBot" [ text "/report"; text "   "; text "no link given" ] emptyCtx
    = (Ok tt,
       mkCtx emptySession
         (out ++ [ReplyWithHTML
                    (reportText "Unknown" "None" (JS.VString chat_id_placeholder) "N/A"
                       "User Provided")])).
Proof.
  eexists.
  change (handleUpdates (fun _ => Ok (mkChatInfo 7 (Some "Any") "channel" None false))
            "MandiusBot" [ text "/report"; text "   "; text "no link given" ] emptyCtx)
    with (generateReport (fun _ => Ok (mkChatInfo 7 (Some "Any") "channel" None false))
            (mkCtx (mkSession (Some "") None (Some "no link given") (Some getReason))
               (sent (snd (handleUpdates
                             (fun _ => Ok (mkChatInfo 7 (Some "Any") "channel" None false))
                             "MandiusBot" [ text "/report"; text "   " ] emptyCtx))))).
  rewrite (missing_link_reports_not_available
             (fun _ => Ok (mkChatInfo 7 (Some "Any") "channel" None false))
             (mkCtx (mkSession (Some "") None (Some "no link given") (Some getReason))
                (sent (snd (handleUpdates
                              (fun _ => Ok (mkChatInfo 7 (Some "Any") "channel" None false))
                              "MandiusBot" [ text "/report"; text "   " ] emptyCtx))))
             (or_intror eq_refl)).
  reflexivity.
Defined.

(** ** The label of any button *)

Lemma formatReason_any (data : string) :
  formatReason data = titleCase true (JS.removeFirst data "reason_").
Proof.
  unfold formatReason, JS.join.
  destruct (words_titleCase (JS.removeFirst data "reason_")) as (w & ws & -> & _ & Ht).
  exact Ht.
Qed.

Lemma upper_ascii_not_underscore (c : ascii) :
  Ascii.eqb c "_" = false -> Ascii.eqb (JS.upper_ascii c) "_" = false.
Proof.
  destruct c as [[] [] [] [] [] [] [] []]; intros H; try reflexivity; discriminate H.
Qed.

Lemma titleCase_no_underscore (start : bool) (s : string) :
  hasChar "_" (titleCase start s) = false.
Proof.
  revert start. induction s as [| c r IH]; intros start; [reflexivity | ].
  cbn [titleCase]. destruct (Ascii.eqb c "_") eqn:Eu; cbn [orb].
  - cbn. apply IH.
  - destruct (Ascii.eqb c " ") eqn:Es.
    + cbn. apply IH.
    + cbn [hasChar]. rewrite IH.
      destruct start; [rewrite (upper_ascii_not_underscore c Eu) | rewrite Eu];
        reflexivity.
Qed.

Lemma titleCase_length (start : bool) (s : string) :
  String.length (titleCase start s) = String.length s.
Proof.
  revert start. induction s as [| c r IH]; intros start; [reflexivity | ].
  cbn [titleCase]. destruct (Ascii.eqb c "_" || Ascii.eqb c " "); cbn; rewrite IH;
    reflexivity.
Qed.

Lemma drop_prefix_length (p s : string) :
  String.prefix p s = true ->
  String.length (JS.drop (String.length p) s) + String.length p = String.length s.
Proof.
  revert s. induction p as [| a p IH]; intros s H.
  - cbn. lia.
  - destruct s as [| b s]; [discriminate H | ].
    cbn in H. destruct (ascii_dec a b); [ | discriminate H].
    cbn. rewrite <- (IH s H). lia.
Qed.

Lemma removeFirst_length (s p : string) :
  JS.includes s p = true ->
  String.length (JS.removeFirst s p) + String.length p = String.length s.
Proof.
  induction s as [| c r IH]; intros H.
  - cbn [JS.includes] in H. rewrite orb_false_r in H.
    cbn [JS.removeFirst]. rewrite H. apply drop_prefix_length. exact H.
  - cbn [JS.includes JS.removeFirst] in *.
    destruct (String.prefix p (String c r)) eqn:E.
    + apply drop_prefix_length. exact E.
    + cbn in H. cbn [String.length]. rewrite <- (IH H). lia.
Qed.

(** X15.  Whatever ASCII data a button of the scene [getReason] carries,
    other than "reason_other", the reason type stored is the data without
    its first "reason_", in title case: it has seven characters less than
    the data and never an underscore.  (Outside ASCII the upper case of a
    letter can be longer than the letter.) *)
Theorem stored_label_has_no_underscore (me : string)
    (getChat : ChatIdentifier -> Res ChatInfo) (who : option string) (data : string)
    (ctx : Ctx) :
  scenes_current (session ctx) = Some getReason ->
  isAscii data = true ->
  JS.includes data "reason_" = true ->
  data <> "reason_other" ->
  exists label,
    reasonType (session (snd (handleUpdate getChat me (mkUpdate who (Callback data)) ctx)))
    = Some label
    /\ label = titleCase true (JS.removeFirst data "reason_")
    /\ hasChar "_" label = false
    /\ String.length label + 7 = String.length data.
Proof.
  intros Hs _ Hd Hne.
  rewrite (handleUpdate_getReason_button me _ ctx who data Hs Hd).
  destruct (getReasonScene_action_spec data ctx) as [msg ->].
  apply String.eqb_neq in Hne. rewrite Hne. cbn [snd session set_reasonType reasonType].
  exists (formatReason data). rewrite formatReason_any.
  split; [reflexivity | split; [reflexivity | ]].
  split; [apply titleCase_no_underscore | ].
  rewrite titleCase_length. exact (removeFirst_length data "reason_" Hd).
Qed.

Lemma stored_label_has_no_underscore_witness :
  exists label,
    reasonType
      (session
         (snd (handleUpdate (failingGetChat "Bad Request: chat not found") "MandiusBot"
                 (mkUpdate None (Callback "my_reason_too_many_ads"))
                 (mkCtx (mkSession (Some "@iPapkornBot") None None (Some getReason)) []))))
    = Some label
    /\ label = "My Too Many Ads".
Proof.
  destruct (stored_label_has_no_underscore "MandiusBot"
              (failingGetChat "Bad Request: chat not found") None "my_reason_too_many_ads"
              (mkCtx (mkSession (Some "@iPapkornBot") None None (Some getReason)) [])
              eq_refl eq_refl eq_refl) as (label & H & Hl & _).
  - discriminate.
  - exists label. split; [exact H | rewrite Hl; reflexivity].
Defined.

(** ** The start of the process *)

Lemma truthy_some (x : option string) :
  truthy x = true -> exists v, x = Some v /\ v <> "" /\ JS.orDefault x "" = v.
Proof.
  destruct x as [[| c r] | ]; try discriminate.
  intros _. exists (String c r). repeat split. discriminate.
Qed.

(** X16.  The process serves only with a token that is not empty.  It
    listens on the webhook only in production, on the path of a WEBHOOK_URL
    that is not empty and that [setWebhook] accepted; it polls only outside
    production, whatever WEBHOOK_URL and PORT hold; and every other start,
    a failed [setWebhook] or [startWebhook] among them, exits with code 1. *)
Theorem process_serves_only_when_configured
    (pathname : string -> option string) (setWebhook : string -> Res unit)
    (startWebhook : option string -> JS.value -> Res unit) (env : Env) :
  match main pathname setWebhook startWebhook env with
  | Exited code => code = 1%Z
  | LongPolling token =>
      BOT_TOKEN env = Some token /\ token <> ""
      /\ NODE_ENV env <> Some "production"
  | WebhookListening token url path port =>
      BOT_TOKEN env = Some token /\ token <> ""
      /\ NODE_ENV env = Some "production"
      /\ WEBHOOK_URL env = Some url /\ url <> ""
      /\ setWebhook url = Ok tt
      /\ path = pathname url
      /\ startWebhook path port = Ok tt
      /\ port = portOf env
  end.
Proof.
  unfold main, checkEnv.
  destruct (truthy (BOT_TOKEN env)) eqn:Ht; cbn [negb]; [ | reflexivity].
  destruct (truthy_some _ Ht) as (token & Etok & Hne & Edef).
  unfold launch. rewrite Edef.
  destruct (isProduction env) eqn:Hp.
  - assert (Hprod : NODE_ENV env = Some "production").
    { unfold isProduction in Hp. destruct (NODE_ENV env) as [v | ]; [ | discriminate].
      apply String.eqb_eq in Hp. rewrite Hp. reflexivity. }
    destruct (truthy (WEBHOOK_URL env)) eqn:Hu; cbn [negb andb]; [ | reflexivity].
    destruct (truthy_some _ Hu) as (url & Eurl & Hune & Eudef).
    rewrite Eudef.
    destruct (setWebhook url) as [[] | e] eqn:Hset; [ | reflexivity].
    destruct (startWebhook (pathname url) (portOf env)) as [[] | e] eqn:Hstart;
      [ | reflexivity].
    repeat split; assumption.
  - rewrite andb_false_r.
    repeat split; try assumption.
    intros E. unfold isProduction in Hp. rewrite E in Hp. discriminate.
Qed.

(** ** The earlier version *)

Lemma earlier_reportText_has_explanationLine (ct ctl link reason detail : string) :
  JS.includes (Earlier.reportText ct ctl link reason detail)
    (Earlier.explanationLine detail) = true.
Proof.
  unfold Earlier.reportText, Earlier.explanationLine.
  do 18 apply includes_append_r.
  rewrite (append_assoc detail nl).
  rewrite (append_assoc "<b>Explanation:</b> " (detail ++ nl)).
  apply includes_here.
Qed.

Lemma earlier_generateReport_spec (ctx : Ctx) :
  Earlier.generateReport ctx
  = (Ok tt,
     mkCtx emptySession
       (sent ctx
        ++ [ReplyWithHTML
              (Earlier.reportText
                 (fst (Earlier.classify (linkOf (session ctx))))
                 (snd (Earlier.classify (linkOf (session ctx))))
                 (linkOf (session ctx)) (reasonOf (session ctx))
                 (JS.orDefault (detailedReason (session ctx))
                    "No detailed explanation provided."))])).
Proof.
  unfold Earlier.generateReport, bind, gets, send, updateSession, modify, linkOf, reasonOf.
  destruct (Earlier.classify (JS.orDefault (reportLink (session ctx)) "N/A"));
    reflexivity.
Qed.

(** X17.  In the earlier version the text typed in the scene [getReason]
    is stored as it is and the report carries it, on the line
    "Explanation:"; the session is empty afterwards. *)
Theorem earlier_report_carries_the_explanation (detail : string) (ctx : Ctx) :
  detail <> "" ->
  exists report,
    Earlier.getReasonScene_text detail ctx
    = (Ok tt, mkCtx emptySession (sent ctx ++ [ReplyWithHTML report]))
    /\ JS.includes report (Earlier.explanationLine detail) = true.
Proof.
  intros Hne.
  unfold Earlier.getReasonScene_text. unfold bind at 1. unfold updateSession, modify.
  unfold bind at 1. rewrite earlier_generateReport_spec.
  eexists. split; [reflexivity | ].
  cbn [session detailedReason set_detailedReason].
  replace (JS.orDefault (Some detail) "No detailed explanation provided.") with detail
    by (destruct detail; [contradiction | reflexivity]).
  apply earlier_reportText_has_explanationLine.
Qed.

Lemma earlier_report_carries_the_explanation_witness :
  exists report,
    Earlier.getReasonScene_text "It sells stolen credit cards."
      (mkCtx (mkSession (Some "@iPapkornBot") (Some "Spam") None (Some getReason)) [])
    = (Ok tt, mkCtx emptySession [ReplyWithHTML report])
    /\ JS.includes report "It sells stolen credit cards." = true.
Proof.
  destruct (earlier_report_carries_the_explanation "It sells stolen credit cards."
              (mkCtx (mkSession (Some "@iPapkornBot") (Some "Spam") None (Some getReason)) []))
    as (report & H & _); [discriminate | ].
  exists report. split; [exact H | ].
  vm_compute in H. injection H as <-. vm_compute. reflexivity.
Defined.

(** X18.  On a link "https://t.me/" and a name with no "/" and no "@" (and
    not beginning "joinchat"), and on the same link with "@" before the
    name, the earlier version and the fallback of the present one give the
    same chat type and the same chat title: the name. *)
Theorem versions_agree_on_tme_links
    (getChat : ChatIdentifier -> Res ChatInfo) (name : string) :
  name <> "" ->
  hasChar "/" name = false ->
  hasChar "@" name = false ->
  String.prefix "joinchat" name = false ->
  lookupFails getChat ("https://t.me/" ++ name) = true ->
  lookupFails getChat ("https://t.me/@" ++ name) = true ->
  let now1 := snd (classify getChat ("https://t.me/" ++ name) initialLocals) in
  let now2 := snd (classify getChat ("https://t.me/@" ++ name) initialLocals) in
  Earlier.classify ("https://t.me/" ++ name) = ("Bot/Channel (Link)", name)
  /\ (chatType now1, chatTitle now1) = ("Bot/Channel (Link)", name)
  /\ Earlier.classify ("https://t.me/@" ++ name) = ("Bot/Channel (Username)", name)
  /\ (chatType now2, chatTitle now2) = ("Bot/Channel (Username)", name).
Proof.
  intros Hne Hslash Hat Hjoin Hf1 Hf2 now1 now2.
  destruct (tme_link_facts name Hslash Hjoin) as (_ & Hlast & Hj & Ht).
  assert (Hslash2 : hasChar "/" ("@" ++ name) = false) by exact Hslash.
  destruct (tme_link_facts ("@" ++ name) Hslash2 eq_refl) as (_ & _ & Hj2 & Ht2).
  assert (Hstart : JS.startsWith name "@" = false).
  { destruct name as [| c r]; [reflexivity | ].
    unfold JS.startsWith. cbn [String.prefix].
    destruct (ascii_dec "@" c) as [<- | _]; [discriminate Hat | reflexivity]. }
  split.
  { unfold Earlier.classify. rewrite Hj, Ht.
    rewrite (includes_hasChar "@" ("https://t.me/" ++ name) "@" eq_refl) by exact Hat.
    rewrite Hlast. reflexivity. }
  split.
  { unfold now1.
    rewrite (classify_lookupFails _ _ Hf1), (heuristic_tme_link name Hne Hslash Hjoin).
    rewrite Hstart. reflexivity. }
  split.
  { unfold Earlier.classify.
    change ("https://t.me/@" ++ name) with ("https://t.me/" ++ ("@" ++ name)).
    rewrite Hj2, Ht2.
    change ("https://t.me/" ++ ("@" ++ name)) with ("https://t.me/" ++ String "@" name).
    rewrite (includes_append_r "https://t.me/" (String "@" name) "@")
      by (apply (includes_here "@" name)).
    rewrite lastOf_split_after_separator, (split_no_separator _ _ Hat). reflexivity. }
  unfold now2.
  change ("https://t.me/@" ++ name) with ("https://t.me/" ++ ("@" ++ name)) in Hf2 |- *.
  rewrite (classify_lookupFails _ _ Hf2).
  rewrite (heuristic_tme_link ("@" ++ name)); [ | discriminate | exact Hslash2 | reflexivity].
  rewrite startsWith_at_cons. reflexivity.
Qed.

Lemma versions_agree_on_tme_links_witness :
  Earlier.classify "https://t.me/@iPapkornBot" = ("Bot/Channel (Username)", "iPapkornBot")
  /\ chatTitle (snd (classify (failingGetChat "Bad Request: chat not found")
                       "https://t.me/@iPapkornBot" initialLocals))
     = "iPapkornBot".
Proof.
  destruct (versions_agree_on_tme_links
              (failingGetChat "Bad Request: chat not found") "iPapkornBot")
    as (_ & _ & H3 & H4);
    [discriminate | reflexivity | reflexivity | reflexivity | reflexivity | reflexivity | ].
  split; [exact H3 | exact (f_equal snd H4)].
Defined.

(** ** The report of a whole dialogue *)

(** X19.  A whole dialogue from the idle state (/report, the link, a
    button, the explanation) sends five things: the prompt, the keyboard,
    the answer to the button with the edited message, and the report.  The
    report is the one for the link without its surrounding white space
    ("N/A" if nothing is left), for its classification, and for the label of
    the button; nothing a former dialogue left in the session shows in it. *)
Theorem dialogue_report_is_for_trimmed_link_and_label (me : string)
    (getChat : ChatIdentifier -> Res ChatInfo) (ctx : Ctx)
    (who : option string) (link data detail : string) :
  scenes_current (session ctx) = None ->
  JS.includes data "reason_" = true ->
  let shown := JS.orDefault (Some (JS.trim link)) "N/A" in
  let label :=
    if String.eqb data "reason_other" then "User Provided"
    else JS.orDefault (Some (formatReason data)) "User Provided" in
  let c := snd (classify getChat shown initialLocals) in
  exists msg,
    handleUpdates getChat me
      [ mkUpdate who (Text "/report");
        mkUpdate who (Text link);
        mkUpdate who (Callback data);
        mkUpdate who (Text detail) ] ctx
    = (Ok tt,
       mkCtx emptySession
         (sent ctx
          ++ [ Reply ("✅ Session created! " ++ nl ++ nl ++ " Please provide the @username (e.g., @iPapkornBot) or a direct link (e.g., https://t.me/channelname) to the channel/group/bot you wish to report.");
               ReplyWithKeyboard
                 "Please explain why this content is illegal under EU or EU member law:"
                 keyboard;
               AnswerCbQuery;
               EditMessageText msg;
               ReplyWithHTML
                 (reportText (chatType c) (chatTitle c) (chat_id c) shown label) ])).
Proof.
  intros Hs Hd shown label c.
  rewrite handleUpdates_cons.
  assert (H1 : handleUpdate getChat me (mkUpdate who (Text "/report")) ctx
               = sceneEnter getLink ctx).
  { rewrite (handleUpdate_idle me _ _ _ Hs). reflexivity. }
  rewrite H1, sceneEnter_spec.
  rewrite handleUpdates_cons.
  unfold handleUpdate at 1. unfold bind at 1. unfold gets at 1.
  cbn [session set_scenes_current scenes_current payload].
  rewrite getLinkScene_text_spec.
  rewrite handleUpdates_cons.
  rewrite handleUpdate_getReason_button; [ | reflexivity | exact Hd].
  match goal with
  | |- context [getReasonScene_action data ?x] =>
      destruct (getReasonScene_action_spec data x) as [msg ->]
  end.
  exists msg.
  rewrite handleUpdates_cons.
  rewrite handleUpdate_getReason_text by reflexivity.
  rewrite getReasonScene_text_spec.
  cbn [handleUpdates ret sent session].
  rewrite <- !app_assoc. cbn [app].
  unfold synthesize, linkOf, reasonOf.
  cbn [reportLink reasonType set_reasonType set_detailedReason].
  fold shown. fold c.
  replace (JS.orDefault
             (Some (if String.eqb data "reason_other" then "User Provided"
                    else formatReason data)) "User Provided")
    with label
    by (unfold label; destruct (String.eqb data "reason_other"); reflexivity).
  reflexivity.
Qed.

Lemma dialogue_report_is_for_trimmed_link_and_label_witness :
  exists msg,
    handleUpdates (failingGetChat "Bad Request: chat not found") "MandiusBot"
      [ text "/report"; text "  https://t.me/somechannel "; button "reason_adult_content";
        text "posts adult content" ] emptyCtx
    = (Ok tt,
       mkCtx emptySession
         [ Reply ("✅ Session created! " ++ nl ++ nl ++ " Please provide the @username (e.g., @iPapkornBot) or a direct link (e.g., https://t.me/channelname) to the channel/group/bot you wish to report.");
           ReplyWithKeyboard
             "Please explain why this content is illegal under EU or EU member law:"
             keyboard;
           AnswerCbQuery;
           EditMessageText msg;
           ReplyWithHTML
             (reportText "Bot/Channel (Link)" "somechannel"
                (JS.VString chat_id_placeholder) "https://t.me/somechannel"
                "Adult Content") ]).
Proof.
  destruct (dialogue_report_is_for_trimmed_link_and_label "MandiusBot"
              (failingGetChat "Bad Request: chat not found") emptyCtx (Some "Ann")
              "  https://t.me/somechannel " "reason_adult_content" "posts adult content"
              eq_refl eq_refl) as [msg H].
  exists msg. exact H.
Defined.
